(** * paddle.tensor.random: the argument-normalising wrappers
      [randint], [randn], [randperm] and [rand]

    A shallow embedding of [python/paddle/tensor/random.py].  The four
    functions validate their arguments, normalise defaults and the data-type
    descriptor, and hand over to collaborators of the framework: the
    immediate-execution operator bindings [core.ops.*], the layer functions
    [uniform_random] and [gaussian_random], and the [LayerHelper] that
    registers a node in the current program.  The collaborators are kept
    abstract (a [Runtime]); what this file contributes is which collaborator
    is called, in which order, with which arguments, and which exception is
    raised before any of them is reached. *)

From Stdlib Require Import ZArith QArith.
From stdpp Require Import base option list strings pretty gmap.

Local Open Scope string_scope.
Local Open Scope list_scope.
Local Open Scope Z_scope.

(** ** Python values that reach these functions *)

(** Modelled from the spec: the enumeration [core.VarDesc.VarType] is not
    defined in this file ("a data-type descriptor (an enumeration value
    covering numeric element kinds)").  Only the element kinds are listed. *)
Inductive VarType : Type :=
| BOOL | INT16 | INT32 | INT64 | FP16 | FP32 | FP64 | UINT8 | INT8.

(** A reference to a [Variable] (graph mode) or [VarBase] (dygraph mode)
    object: an index in the object store of the framework. *)
Abbreviation handle := nat (only parsing).

#[warnings="-register-all"]
Inductive PyVal : Type :=
| VNone
| VInt (z : Z)
| VFloat (q : Q)                 (* a float literal, only passed along *)
| VStr (s : string)
| VList (l : list PyVal)
| VTuple (l : list PyVal)
| VVar (h : handle)              (* a Variable object *)
| VDType (t : VarType).          (* a member of core.VarDesc.VarType *)

(** The classes named in the [isinstance] tests of this file. *)
Inductive PyType : Type := TList | TTuple | TVariable | TVarType.

Definition has_type (v : PyVal) (t : PyType) : bool :=
  match v, t with
  | VList _, TList => true
  | VTuple _, TTuple => true
  | VVar _, TVariable => true
  | VDType _, TVarType => true
  | _, _ => false
  end.

(** [isinstance(v, (t1, ..., tn))] *)
Definition isinstance (v : PyVal) (ts : list PyType) : bool :=
  existsb (has_type v) ts.

(** ** Exceptions and results *)

Inductive PyExn : Type :=
| ValueError (msg : string)
| TypeError (msg : string)
| OtherError (kind msg : string).   (* anything else a collaborator raises *)

Inductive Result (A : Type) : Type :=
| Ok (a : A)
| Raise (e : PyExn).
Arguments Ok {A} a.
Arguments Raise {A} e.

Definition is_ValueError {A} (r : Result A) : bool :=
  match r with Raise (ValueError _) => true | _ => false end.

Definition is_TypeError {A} (r : Result A) : bool :=
  match r with Raise (TypeError _) => true | _ => false end.

Definition is_Ok {A} (r : Result A) : bool :=
  match r with Ok _ => true | Raise _ => false end.

(** ** The state of the framework *)

Record VarObj : Type := mkVarObj {
  var_dtype : VarType;
  stop_gradient : bool
}.

(** A node of the deferred computation graph, as [append_op] receives it. *)
Record OpDesc : Type := mkOpDesc {
  op_type : string;
  op_inputs : gmap string PyVal;
  op_outputs : gmap string PyVal;
  op_attrs : gmap string PyVal
}.

Record Framework : Type := mkFramework {
  dygraph_mode : bool;          (* what in_dygraph_mode() answers *)
  heap : list VarObj;           (* the Variable / VarBase objects, by handle *)
  block_ops : list OpDesc       (* the operators of the current block *)
}.

(** The invocations of collaborators issued by the functions of this file,
    in order.  A collaborator cannot write here: whatever it calls in turn
    is its own business. *)
Inductive Event : Type :=
| EvCoerce (d : PyVal)                                (* convert_np_dtype_to_dtype_(d) *)
| EvOp (op : string) (args : list (string * PyVal))   (* core.ops.<op>(k1, v1, ...) *)
| EvLayer (fn : string) (args : list (string * PyVal)) (* a layer function *)
| EvAppendOp (d : OpDesc).                            (* helper.append_op(...) *)

Record World : Type := mkWorld {
  fw : Framework;
  trace : list Event
}.

(** ** State and exception monad *)

Definition M (A : Type) : Type := World -> Result A * World.

Definition ret {A} (a : A) : M A := fun w => (Ok a, w).

Definition raise {A} (e : PyExn) : M A := fun w => (Raise e, w).

Definition bind {A B} (m : M A) (k : A -> M B) : M B :=
  fun w => match m w with
           | (Ok a, w') => k a w'
           | (Raise e, w') => (Raise e, w')
           end.

Notation "x <- m ;; k" := (bind m (fun x => k))
  (at level 100, m at next level, right associativity).
Notation "m ;;; k" := (bind m (fun _ => k))
  (at level 100, right associativity).

Definition lift {A} (r : Result A) : M A := fun w => (r, w).

Definition log (e : Event) : M unit :=
  fun w => (Ok tt, {| fw := fw w; trace := trace w ++ [e] |}).

(** Run a collaborator: it sees and changes the framework only. *)
Definition call {A} (f : Framework -> Result A * Framework) : M A :=
  fun w => let (r, s) := f (fw w) in (r, {| fw := s; trace := trace w |}).

Definition in_dygraph_mode : M bool :=
  fun w => (Ok (dygraph_mode (fw w)), w).

(** The state of the framework after [out.stop_gradient = b]: the object is
    updated in place, so every holder of the handle sees it. *)
Definition with_stop_gradient (s : Framework) (out : handle) (b : bool)
    : Framework :=
  {| dygraph_mode := dygraph_mode s;
     heap := alter (fun o => {| var_dtype := var_dtype o;
                                stop_gradient := b |}) out (heap s);
     block_ops := block_ops s |}.

Definition set_stop_gradient (out : handle) (b : bool) : M unit :=
  fun w => (Ok tt, {| fw := with_stop_gradient (fw w) out b;
                      trace := trace w |}).

(** ** Collaborators *)

(** The parts of the framework that this file calls and does not define.
    Each one is an arbitrary function of its arguments and of the state of
    the framework: it may raise, allocate objects and register nodes. *)
Record Runtime : Type := mkRuntime {
  (* fluid.framework.convert_np_dtype_to_dtype_ *)
  convert_np_dtype_to_dtype_ : PyVal -> Result VarType;
  (* fluid.layers.utils._convert_shape_to_list *)
  _convert_shape_to_list : PyVal -> Framework -> Result PyVal * Framework;
  (* fluid.layers.utils._get_shape_tensor_inputs: it updates the two
     dictionaries it is given, returned here as (inputs, attrs) *)
  _get_shape_tensor_inputs :
    gmap string PyVal -> gmap string PyVal -> PyVal -> string ->
    Framework -> Result (gmap string PyVal * gmap string PyVal) * Framework;
  (* core.ops.<op>(name1, value1, name2, value2, ...) *)
  core_ops : string -> list (string * PyVal) ->
             Framework -> Result handle * Framework;
  (* fluid.layers.uniform_random and fluid.layers.gaussian_random, applied
     to their arguments by parameter name *)
  uniform_random : list (string * PyVal) ->
                   Framework -> Result handle * Framework;
  gaussian_random : list (string * PyVal) ->
                    Framework -> Result handle * Framework;
  (* LayerHelper.append_op, applied to the node it is asked to register *)
  helper_append_op : OpDesc -> Framework -> Result unit * Framework
}.

(** ** Validation helpers of fluid.data_feeder *)

Definition type_name (t : PyType) : string :=
  match t with
  | TList => "list" | TTuple => "tuple"
  | TVariable => "Variable" | TVarType => "VarType"
  end.

(** Modelled from the spec: [check_type] of fluid.data_feeder is not in this
    file.  "input validation raising a typed error when shape is not one of
    the accepted representations"; the docstring of [randint] names the
    error: "TypeError: If shape's type is not list, tuple or Variable". *)
Definition check_type (input : PyVal) (input_name : string)
    (expected_type : list PyType) (op_name : string) : Result unit :=
  if isinstance input expected_type then Ok tt
  else Raise (TypeError ("The type of '" +:+ input_name +:+ "' in " +:+ op_name
                         +:+ " must be one of "
                         +:+ String.concat ", " (map type_name expected_type))).

(** Modelled from the spec: [convert_dtype] of fluid.data_feeder, the name
    under which a member of the enumeration is listed in [check_dtype]. *)
Definition convert_dtype (t : VarType) : string :=
  match t with
  | BOOL => "bool" | INT16 => "int16" | INT32 => "int32" | INT64 => "int64"
  | FP16 => "float16" | FP32 => "float32" | FP64 => "float64"
  | UINT8 => "uint8" | INT8 => "int8"
  end.

(** Modelled from the spec: [check_dtype] of fluid.data_feeder is not in this
    file.  "raising a typed error ... when the requested data type is outside
    the supported enumeration"; the docstring of [randint] names the error:
    "TypeError: If dtype is not int32 or int64". *)
Definition check_dtype (input_dtype : VarType) (input_name : string)
    (expected_dtype : list string) (op_name : string) : Result unit :=
  if bool_decide (convert_dtype input_dtype ∈ expected_dtype) then Ok tt
  else Raise (TypeError ("The data type of '" +:+ input_name +:+ "' in "
                         +:+ op_name +:+ " must be one of "
                         +:+ String.concat ", " expected_dtype
                         +:+ ", but received " +:+ convert_dtype input_dtype)).

(** ** The graph-building helper *)

(** Modelled from the spec: [LayerHelper] of fluid.layer_helper is not in
    this file.  "construct a deferred graph node via a helper", "registering a
    node in a caller-owned computation graph".  The helper is built from the
    operator name and the local variables of the caller, of which the model
    keeps [name]. *)
Record LayerHelper : Type := mkLayerHelper {
  layer_type : string;
  helper_name : PyVal
}.

(** The state of the framework after one object was added to the store. *)
Definition with_variable (s : Framework) (o : VarObj) : Framework :=
  {| dygraph_mode := dygraph_mode s;
     heap := heap s ++ [o];
     block_ops := block_ops s |}.

(** Modelled from the spec: a fresh Variable of the given element type in
    the current block; it takes the next free handle, and gradients are not
    stopped on it until the caller says so. *)
Definition create_variable_for_type_inference (helper : LayerHelper)
    (dtype : VarType) : M handle :=
  fun w =>
    (Ok (length (heap (fw w))),
     {| fw := with_variable (fw w) {| var_dtype := dtype;
                                      stop_gradient := false |};
        trace := trace w |}).

(** [helper.append_op(type=..., inputs=..., outputs=..., attrs=...)]: the
    node is handed to the helper of the runtime, which may refuse it; how
    the block changes is the helper's business. *)
Definition append_op (rt : Runtime) (helper : LayerHelper) (type : string)
    (inputs outputs attrs : gmap string PyVal) : M unit :=
  let d := {| op_type := type; op_inputs := inputs;
              op_outputs := outputs; op_attrs := attrs |} in
  fun w =>
    let (r, s) := helper_append_op rt d (fw w) in
    (r, {| fw := s; trace := trace w ++ [EvAppendOp d] |}).

(** ** Calls into the collaborators, recorded in the trace *)

(** [if not isinstance(dtype, core.VarDesc.VarType):
        dtype = convert_np_dtype_to_dtype_(dtype)] *)
Definition coerce (rt : Runtime) (dtype : PyVal) : M VarType :=
  match dtype with
  | VDType t => ret t
  | _ => log (EvCoerce dtype) ;;; lift (convert_np_dtype_to_dtype_ rt dtype)
  end.

Definition ops_call (rt : Runtime) (op : string)
    (args : list (string * PyVal)) : M handle :=
  log (EvOp op args) ;;; call (core_ops rt op args).

Definition layer_call (fn : string)
    (f : list (string * PyVal) -> Framework -> Result handle * Framework)
    (args : list (string * PyVal)) : M handle :=
  log (EvLayer fn args) ;;; call (f args).

(** ** The four functions *)

(** [if dtype is None: dtype = '<default>'] *)
Definition default_dtype (dtype : PyVal) (default : string) : PyVal :=
  match dtype with
  | VNone => VStr default
  | _ => dtype
  end.

(** Defaults of the signature
    [randint(low=0, high=None, shape=[1], dtype=None, name=None)]. *)
Definition randint_default_shape : PyVal := VList [VInt 1].

Definition randint_bounds (low : Z) (high : option Z) : Z * Z :=
  match high with
  | None => (0, low)
  | Some h => (low, h)
  end.

Definition randint_message (low high : Z) : string :=
  "randint's low must less then high, but received low = " +:+ pretty low
  +:+ ", high = " +:+ pretty high.

(** The arguments of [core.ops.randint(...)]. *)
Definition randint_op_args (shape : PyVal) (low high : Z) (dtype : VarType)
    : list (string * PyVal) :=
  [("shape", shape); ("low", VInt low); ("high", VInt high);
   ("seed", VInt 0); ("dtype", VDType dtype)].

(** [attrs = {'low': low, 'high': high, 'seed': 0, 'dtype': dtype}] *)
Definition randint_attrs (low high : Z) (dtype : VarType) : gmap string PyVal :=
  <["low" := VInt low]> (<["high" := VInt high]>
    (<["seed" := VInt 0]> (<["dtype" := VDType dtype]> ∅))).

Definition randint (rt : Runtime) (low : Z) (high : option Z)
    (shape dtype name : PyVal) : M handle :=
  let '(low, high) := randint_bounds low high in
  let dtype := default_dtype dtype "int64" in
  dtype <- coerce rt dtype ;;
  dyg <- in_dygraph_mode ;;
  if (dyg : bool) then
    shape <- call (_convert_shape_to_list rt shape) ;;
    ops_call rt "randint" (randint_op_args shape low high dtype)
  else
    lift (check_type shape "shape" [TList; TTuple; TVariable] "randint") ;;;
    lift (check_dtype dtype "dtype" ["int32"; "int64"] "randint") ;;;
    if low >=? high then raise (ValueError (randint_message low high))
    else
      let inputs : gmap string PyVal := ∅ in
      let attrs := randint_attrs low high dtype in
      ia <- call (_get_shape_tensor_inputs rt inputs attrs shape "randint") ;;
      let '(inputs, attrs) := ia in
      let helper := {| layer_type := "randint"; helper_name := name |} in
      out <- create_variable_for_type_inference helper dtype ;;
      append_op rt helper "randint" inputs {["Out" := VVar out]} attrs ;;;
      ret out.

(** [gaussian_random(shape=shape, mean=0.0, std=1.0, seed=0, dtype=dtype,
                     name=name)] *)
Definition randn_args (shape dtype name : PyVal) : list (string * PyVal) :=
  [("shape", shape); ("mean", VFloat 0); ("std", VFloat 1);
   ("seed", VInt 0); ("dtype", dtype); ("name", name)].

(** [randn(shape, dtype=None, name=None)] *)
Definition randn (rt : Runtime) (shape dtype name : PyVal) : M handle :=
  let dtype := default_dtype dtype "float32" in
  out <- layer_call "gaussian_random" (gaussian_random rt)
           (randn_args shape dtype name) ;;
  set_stop_gradient out true ;;;
  ret out.

(** Default of the signature [randperm(n, dtype="int64", name=None)]; the
    decorator of [randperm] only fills in its docstring. *)
Definition randperm_default_dtype : PyVal := VStr "int64".

Definition randperm_message : string :=
  "The input n should be greater than 0 in randperm op.".

(** The arguments of [core.ops.randperm(...)]. *)
Definition randperm_op_args (n : Z) (dtype : VarType) : list (string * PyVal) :=
  [("n", VInt n); ("seed", VInt 0); ("dtype", VDType dtype)].

(** [attrs = {'n': n, 'dtype': dtype, 'seed': 0}] *)
Definition randperm_attrs (n : Z) (dtype : VarType) : gmap string PyVal :=
  <["n" := VInt n]> (<["dtype" := VDType dtype]> (<["seed" := VInt 0]> ∅)).

Definition randperm (rt : Runtime) (n : Z) (dtype name : PyVal) : M handle :=
  dtype <- coerce rt dtype ;;
  dyg <- in_dygraph_mode ;;
  if (dyg : bool) then
    ops_call rt "randperm" (randperm_op_args n dtype)
  else
    if n <? 1 then raise (ValueError randperm_message)
    else
      lift (check_dtype dtype "dtype"
              ["int64"; "int32"; "float32"; "float64"] "randperm") ;;;
      let helper := {| layer_type := "randperm"; helper_name := name |} in
      out <- create_variable_for_type_inference helper dtype ;;
      let attrs := randperm_attrs n dtype in
      append_op rt helper "randperm" ∅ {["Out" := VVar out]} attrs ;;;
      set_stop_gradient out true ;;;
      ret out.

(** [uniform_random(shape, dtype, min=0.0, max=1.0, name=name)] *)
Definition rand_args (shape dtype name : PyVal) : list (string * PyVal) :=
  [("shape", shape); ("dtype", dtype); ("min", VFloat 0);
   ("max", VFloat 1); ("name", name)].

(** [rand(shape, dtype=None, name=None)] *)
Definition rand (rt : Runtime) (shape dtype name : PyVal) : M handle :=
  let dtype := default_dtype dtype "float32" in
  out <- layer_call "uniform_random" (uniform_random rt)
           (rand_args shape dtype name) ;;
  set_stop_gradient out true ;;;
  ret out.

(** ** What a call hands to its collaborators *)

(** The outcome of [coerce], and what it adds to the trace. *)
Definition resolve (rt : Runtime) (dtype : PyVal) : Result VarType :=
  match dtype with
  | VDType t => Ok t
  | _ => convert_np_dtype_to_dtype_ rt dtype
  end.

Definition coerce_events (dtype : PyVal) : list Event :=
  match dtype with
  | VDType _ => []
  | _ => [EvCoerce dtype]
  end.

Definition lookup_arg (k : string) (args : list (string * PyVal)) : option PyVal :=
  snd <$> find (fun kv => String.eqb (fst kv) k) args.


Definition has_param (e : Event) (k : string) : bool :=
  match e with
  | EvCoerce _ => false
  | EvOp _ args => bool_decide (is_Some (lookup_arg k args))
  | EvLayer _ args => bool_decide (is_Some (lookup_arg k args))
  | EvAppendOp d => bool_decide (is_Some (op_attrs d !! k))
  end.

Definition is_invocation (e : Event) : bool :=
  match e with
  | EvCoerce _ => false
  | _ => true
  end.

(** The named parameters an invocation has to carry.  The operator binding
    of [randint] receives the shape with the bounds, the seed and the data
    type; in graph mode the shape goes to [_get_shape_tensor_inputs] with
    the attributes, and the node carries what that helper made of it beside
    the attributes listed here. *)
Definition fixed_params (e : Event) : option (list string) :=
  match e with
  | EvCoerce _ => None
  | EvOp op _ =>
      if String.eqb op "randint"
      then Some ["shape"; "low"; "high"; "seed"; "dtype"]
      else if String.eqb op "randperm" then Some ["n"; "seed"; "dtype"]
      else None
  | EvLayer fn _ =>
      if String.eqb fn "gaussian_random"
      then Some ["shape"; "mean"; "std"; "seed"; "dtype"; "name"]
      else if String.eqb fn "uniform_random"
      then Some ["shape"; "dtype"; "min"; "max"; "name"]
      else None
  | EvAppendOp d =>
      if String.eqb (op_type d) "randint"
      then Some ["low"; "high"; "seed"; "dtype"]
      else if String.eqb (op_type d) "randperm" then Some ["n"; "dtype"; "seed"]
      else None
  end.


Definition carries_fixed_params (e : Event) : bool :=
  negb (is_invocation e)
  || match fixed_params e with
     | Some names => forallb (has_param e) names
     | None => false
     end.



(** ** A runtime to run the functions on *)

(** A permissive behaviour of the collaborators, for evaluating the
    functions on concrete arguments: descriptors are looked up by name,
    shapes given as lists or tuples are accepted, every operator accepts its
    arguments and returns a new object, and every node is added to the
    block. *)
Module Sample.

Definition convert (d : PyVal) : Result VarType :=
  match d with
  | VStr s =>
      if String.eqb s "int32" then Ok INT32
      else if String.eqb s "int64" then Ok INT64
      else if String.eqb s "float32" then Ok FP32
      else if String.eqb s "float64" then Ok FP64
      else Raise (TypeError ("data type '" +:+ s +:+ "' not understood"))
  | _ => Raise (TypeError "Cannot interpret the value as a data type")
  end.

Definition shape_to_list (shape : PyVal) (s : Framework)
    : Result PyVal * Framework :=
  match shape with
  | VList l | VTuple l => (Ok (VList l), s)
  | _ => (Raise (OtherError "AttributeError" "no attribute 'numpy'"), s)
  end.

Definition shape_inputs (inputs attrs : gmap string PyVal) (shape : PyVal)
    (op : string) (s : Framework)
    : Result (gmap string PyVal * gmap string PyVal) * Framework :=
  match shape with
  | VVar h => (Ok (<["ShapeTensor" := shape]> inputs, attrs), s)
  | VList l | VTuple l => (Ok (inputs, <["shape" := VList l]> attrs), s)
  | _ => (Raise (OtherError "AttributeError" "no attribute 'shape'"), s)
  end.

Definition new_object (t : VarType) (s : Framework)
    : Result handle * Framework :=
  (Ok (length (heap s)),
   {| dygraph_mode := dygraph_mode s;
      heap := heap s ++ [{| var_dtype := t; stop_gradient := false |}];
      block_ops := block_ops s |}).

Definition ops (op : string) (args : list (string * PyVal)) (s : Framework)
    : Result handle * Framework :=
  match lookup_arg "dtype" args with
  | Some (VDType t) => new_object t s
  | _ => (Raise (OtherError "EnforceNotMet" "dtype"), s)
  end.

Definition layer (args : list (string * PyVal)) (s : Framework)
    : Result handle * Framework :=
  match convert (default (VStr "float32") (lookup_arg "dtype" args)) with
  | Ok t => new_object t s
  | Raise e => (Raise e, s)
  end.

Definition append (d : OpDesc) (s : Framework) : Result unit * Framework :=
  (Ok tt,
   {| dygraph_mode := dygraph_mode s;
      heap := heap s;
      block_ops := block_ops s ++ [d] |}).

Definition runtime : Runtime :=
  {| convert_np_dtype_to_dtype_ := convert;
     _convert_shape_to_list := shape_to_list;
     _get_shape_tensor_inputs := shape_inputs;
     core_ops := ops;
     uniform_random := layer;
     gaussian_random := layer;
     helper_append_op := append |}.

Definition start (dyg : bool) : World :=
  {| fw := {| dygraph_mode := dyg; heap := []; block_ops := [] |};
     trace := [] |}.

Definition graph : World := start false.
Definition dygraph : World := start true.

End Sample.

(** The events a call added to the trace of the world it started in. *)
Definition new_events (w w' : World) : list Event :=
  drop (length (trace w)) (trace w').

(** Steps (b) and (c) of the overview, read off the trace of a call of the
    function [op] with the descriptor [dtype]: the call "coerces a data-type
    descriptor" and then "branches on an execution-mode flag to either call
    an immediate-execution operator binding or construct a deferred graph
    node via a helper".  The descriptor stands for a member [t] of the
    enumeration, reached by a coercion exactly when the descriptor is not a
    member already; then comes the one dispatch the mode selects, to the
    operator [op], carrying [t] as its data type. *)
Definition four_steps (rt : Runtime) (op : string) (dtype : PyVal)
    (dyg : bool) (evs : list Event) : Prop :=
  exists t e,
    resolve rt dtype = Ok t
    /\ evs = coerce_events dtype ++ [e]
    /\ match e with
       | EvOp op' args =>
           dyg = true /\ op' = op
           /\ lookup_arg "dtype" args = Some (VDType t)
       | EvAppendOp d =>
           dyg = false /\ op_type d = op
           /\ op_attrs d !! "dtype" = Some (VDType t)
       | _ => False
       end.

(** [_get_shape_tensor_inputs] leaves the attributes it is given in place:
    it may only add the shape. *)
Definition keeps_attrs (rt : Runtime) : Prop :=
  forall inputs attrs shape op s inputs' attrs' s',
    _get_shape_tensor_inputs rt inputs attrs shape op s
      = (Ok (inputs', attrs'), s') ->
    forall k v, k <> "shape" -> attrs !! k = Some v -> attrs' !! k = Some v.



(** ** What the theorems ask of a collaborator *)

(** The operator binding of [randint] rejects an empty range, as the
    docstring of [randint] has it: "ValueError: If low is not large then
    high". *)
Definition binding_checks_bounds (rt : Runtime) : Prop :=
  forall args l h s,
    lookup_arg "low" args = Some (VInt l) ->
    lookup_arg "high" args = Some (VInt h) ->
    h <= l ->
    is_ValueError (core_ops rt "randint" args s).1 = true.


(** The tensor [uniform_random] returns has the element type its [dtype]
    argument stands for. *)
Definition layer_honours_dtype (rt : Runtime) : Prop :=
  forall args d s h s',
    lookup_arg "dtype" args = Some d ->
    uniform_random rt args s = (Ok h, s') ->
    exists t, resolve rt d = Ok t /\ var_dtype <$> heap s' !! h = Some t.

(** ** Variations of a runtime *)

(** The runtime [rt] with another coercion function. *)
Definition with_convert (rt : Runtime) (f : PyVal -> Result VarType) : Runtime :=
  {| convert_np_dtype_to_dtype_ := f;
     _convert_shape_to_list := _convert_shape_to_list rt;
     _get_shape_tensor_inputs := _get_shape_tensor_inputs rt;
     core_ops := core_ops rt;
     uniform_random := uniform_random rt;
     gaussian_random := gaussian_random rt;
     helper_append_op := helper_append_op rt |}.

(** The sample runtime with a [_get_shape_tensor_inputs] that rejects every
    shape: it stands for any error that helper may raise. *)
Module Failing.

Definition shape_inputs (inputs attrs : gmap string PyVal) (shape : PyVal)
    (op : string) (s : Framework)
    : Result (gmap string PyVal * gmap string PyVal) * Framework :=
  (Raise (OtherError "Exception" "shape rejected"), s).

Definition runtime : Runtime :=
  {| convert_np_dtype_to_dtype_ := Sample.convert;
     _convert_shape_to_list := Sample.shape_to_list;
     _get_shape_tensor_inputs := shape_inputs;
     core_ops := Sample.ops;
     uniform_random := Sample.layer;
     gaussian_random := Sample.layer;
     helper_append_op := Sample.append |}.

End Failing.

(** The sample runtime with collaborators that check what they are given:
    the operator binding of [randint] rejects an empty range with a
    ValueError, the objects the bindings return have their gradients
    stopped, and [append_op] refuses a node whose attribute [n] does not fit
    32 bits. *)
Module Eager.

Definition new_object (t : VarType) (s : Framework)
    : Result handle * Framework :=
  (Ok (length (heap s)),
   with_variable s {| var_dtype := t; stop_gradient := true |}).

Definition empty_range (args : list (string * PyVal)) : bool :=
  match lookup_arg "low" args, lookup_arg "high" args with
  | Some (VInt l), Some (VInt h) => h <=? l
  | _, _ => false
  end.

Definition ops (op : string) (args : list (string * PyVal)) (s : Framework)
    : Result handle * Framework :=
  if String.eqb op "randint" && empty_range args
  then (Raise (ValueError "randint: low must be less than high"), s)
  else match lookup_arg "dtype" args with
       | Some (VDType t) => new_object t s
       | _ => (Raise (OtherError "EnforceNotMet" "dtype"), s)
       end.

Definition append (d : OpDesc) (s : Framework) : Result unit * Framework :=
  match op_attrs d !! "n" with
  | Some (VInt n) =>
      if 2147483648 <=? n
      then (Raise (OtherError "Exception" "attribute n out of range"), s)
      else Sample.append d s
  | _ => Sample.append d s
  end.

Definition runtime : Runtime :=
  {| convert_np_dtype_to_dtype_ := Sample.convert;
     _convert_shape_to_list := Sample.shape_to_list;
     _get_shape_tensor_inputs := Sample.shape_inputs;
     core_ops := ops;
     uniform_random := Sample.layer;
     gaussian_random := Sample.layer;
     helper_append_op := append |}.

End Eager.

(** What a call of [randint] or [randperm] may invoke in a mode: the
    coercion in both, the operator binding in dygraph mode only, the helper's
    [append_op] in graph mode only, and never a layer function. *)
Definition dispatch_allowed (dyg : bool) (e : Event) : bool :=
  match e with
  | EvCoerce _ => true
  | EvOp _ _ => dyg
  | EvAppendOp _ => negb dyg
  | EvLayer _ _ => false
  end.

(** The data types [randint] and [randperm] list in their [check_dtype]. *)
Definition randint_supported (t : VarType) : Prop :=
  t = INT32 \/ t = INT64.

Definition randperm_supported (t : VarType) : Prop :=
  t = INT32 \/ t = INT64 \/ t = FP32 \/ t = FP64.

(** * Properties *)

Ltac run_monad :=
  repeat progress
    (unfold ops_call, layer_call, bind, ret, raise, lift, log, call,
       in_dygraph_mode, set_stop_gradient,
       create_variable_for_type_inference, append_op in *; simpl in *).

Section Wrappers.

Variable rt : Runtime.

Lemma coerce_run (d : PyVal) (w : World) :
  coerce rt d w
  = (resolve rt d, {| fw := fw w; trace := trace w ++ coerce_events d |}).
Proof.
  destruct w as [s tr].
  destruct d; simpl; run_monad; try reflexivity.
  by rewrite app_nil_r.
Qed.

Lemma bind_coerce {A} (d : PyVal) (k : VarType -> M A) (w : World) :
  bind (coerce rt d) k w
  = match resolve rt d with
    | Ok t => k t {| fw := fw w; trace := trace w ++ coerce_events d |}
    | Raise e =>
        (Raise e, {| fw := fw w; trace := trace w ++ coerce_events d |})
    end.
Proof. unfold bind at 1. rewrite coerce_run. by destruct (resolve rt d). Qed.

Lemma check_type_ok (v : PyVal) (a : string) (ts : list PyType) (op : string) :
  isinstance v ts = true -> check_type v a ts op = Ok tt.
Proof. intros H. unfold check_type. by rewrite H. Qed.

Lemma check_type_fails (v : PyVal) (a : string) (ts : list PyType) (op : string) :
  isinstance v ts = false -> is_TypeError (check_type v a ts op) = true.
Proof. intros H. unfold check_type. by rewrite H. Qed.

(** *** What a call amounts to in each mode *)

Lemma randint_graph low high shape dtype name w t :
  dygraph_mode (fw w) = false ->
  resolve rt (default_dtype dtype "int64") = Ok t ->
  let l := (randint_bounds low high).1 in
  let h := (randint_bounds low high).2 in
  let w1 := {| fw := fw w;
               trace := trace w ++ coerce_events (default_dtype dtype "int64") |} in
  randint rt low high shape dtype name w
  = match check_type shape "shape" [TList; TTuple; TVariable] "randint" with
    | Raise e => (Raise e, w1)
    | Ok _ =>
      match check_dtype t "dtype" ["int32"; "int64"] "randint" with
      | Raise e => (Raise e, w1)
      | Ok _ =>
        if l >=? h then (Raise (ValueError (randint_message l h)), w1)
        else
          match _get_shape_tensor_inputs rt ∅ (randint_attrs l h t) shape
                  "randint" (fw w) with
          | (Raise e, s1) => (Raise e, {| fw := s1; trace := trace w1 |})
          | (Ok (ins, ats), s1) =>
            let out := length (heap s1) in
            let d := {| op_type := "randint"; op_inputs := ins;
                        op_outputs := {["Out" := VVar out]};
                        op_attrs := ats |} in
            match helper_append_op rt d
                    (with_variable s1 {| var_dtype := t;
                                         stop_gradient := false |}) with
            | (Ok _, s2) =>
                (Ok out, {| fw := s2; trace := trace w1 ++ [EvAppendOp d] |})
            | (Raise e, s2) =>
                (Raise e, {| fw := s2; trace := trace w1 ++ [EvAppendOp d] |})
            end
          end
      end
    end.
Proof.
  intros Hmode Hres. unfold randint.
  destruct (randint_bounds low high) as [l h]. simpl.
  rewrite bind_coerce, Hres. run_monad. rewrite Hmode.
  destruct (check_type _ _ _ _); [|reflexivity].
  destruct (check_dtype _ _ _ _); [|reflexivity].
  destruct (l >=? h); [reflexivity|].
  destruct (_get_shape_tensor_inputs _ _ _ _ _ _) as [[[ins ats]|e] s1];
    [|reflexivity].
  run_monad. by destruct (helper_append_op _ _ _) as [[[]|e] s2].
Qed.

Lemma randint_dygraph low high shape dtype name w t :
  dygraph_mode (fw w) = true ->
  resolve rt (default_dtype dtype "int64") = Ok t ->
  let l := (randint_bounds low high).1 in
  let h := (randint_bounds low high).2 in
  let tr := trace w ++ coerce_events (default_dtype dtype "int64") in
  randint rt low high shape dtype name w
  = match _convert_shape_to_list rt shape (fw w) with
    | (Raise e, s1) => (Raise e, {| fw := s1; trace := tr |})
    | (Ok sh, s1) =>
      let args := randint_op_args sh l h t in
      ((core_ops rt "randint" args s1).1,
       {| fw := (core_ops rt "randint" args s1).2;
          trace := tr ++ [EvOp "randint" args] |})
    end.
Proof.
  intros Hmode Hres. unfold randint.
  destruct (randint_bounds low high) as [l h]. simpl.
  rewrite bind_coerce, Hres. run_monad. rewrite Hmode.
  destruct (_convert_shape_to_list _ _ _) as [[sh|e] s1]; [|reflexivity].
  run_monad. by destruct (core_ops _ _ _ _).
Qed.

Lemma randint_coerce_fails low high shape dtype name w e :
  resolve rt (default_dtype dtype "int64") = Raise e ->
  randint rt low high shape dtype name w
  = (Raise e, {| fw := fw w;
                 trace := trace w ++ coerce_events (default_dtype dtype "int64") |}).
Proof.
  intros Hres. unfold randint.
  destruct (randint_bounds low high) as [l h]. simpl.
  by rewrite bind_coerce, Hres.
Qed.

Lemma randperm_graph n dtype name w t :
  dygraph_mode (fw w) = false ->
  resolve rt dtype = Ok t ->
  let w1 := {| fw := fw w; trace := trace w ++ coerce_events dtype |} in
  randperm rt n dtype name w
  = if n <? 1 then (Raise (ValueError randperm_message), w1)
    else
      match check_dtype t "dtype" ["int64"; "int32"; "float32"; "float64"]
              "randperm" with
      | Raise e => (Raise e, w1)
      | Ok _ =>
        let out := length (heap (fw w)) in
        let d := {| op_type := "randperm"; op_inputs := ∅;
                    op_outputs := {["Out" := VVar out]};
                    op_attrs := randperm_attrs n t |} in
        match helper_append_op rt d
                (with_variable (fw w) {| var_dtype := t;
                                         stop_gradient := false |}) with
        | (Ok _, s2) =>
            (Ok out, {| fw := with_stop_gradient s2 out true;
                        trace := trace w1 ++ [EvAppendOp d] |})
        | (Raise e, s2) =>
            (Raise e, {| fw := s2; trace := trace w1 ++ [EvAppendOp d] |})
        end
      end.
Proof.
  intros Hmode Hres. unfold randperm.
  rewrite bind_coerce, Hres. run_monad. rewrite Hmode.
  destruct (n <? 1); [reflexivity|].
  destruct (check_dtype _ _ _ _); [|reflexivity].
  run_monad. by destruct (helper_append_op _ _ _) as [[[]|e] s2].
Qed.

Lemma randperm_dygraph n dtype name w t :
  dygraph_mode (fw w) = true ->
  resolve rt dtype = Ok t ->
  let args := randperm_op_args n t in
  randperm rt n dtype name w
  = ((core_ops rt "randperm" args (fw w)).1,
     {| fw := (core_ops rt "randperm" args (fw w)).2;
        trace := (trace w ++ coerce_events dtype) ++ [EvOp "randperm" args] |}).
Proof.
  intros Hmode Hres. unfold randperm.
  rewrite bind_coerce, Hres. run_monad. rewrite Hmode.
  run_monad. by destruct (core_ops _ _ _ _).
Qed.

Lemma randperm_coerce_fails n dtype name w e :
  resolve rt dtype = Raise e ->
  randperm rt n dtype name w
  = (Raise e, {| fw := fw w; trace := trace w ++ coerce_events dtype |}).
Proof. intros Hres. unfold randperm. by rewrite bind_coerce, Hres. Qed.

Lemma layer_then_stop fn f args w :
  (out <- layer_call fn f args ;; set_stop_gradient out true ;;; ret out) w
  = match f args (fw w) with
    | (Ok out, s) =>
        (Ok out, {| fw := with_stop_gradient s out true;
                    trace := trace w ++ [EvLayer fn args] |})
    | (Raise e, s) =>
        (Raise e, {| fw := s; trace := trace w ++ [EvLayer fn args] |})
    end.
Proof. run_monad. by destruct (f args (fw w)) as [[out|e] s]. Qed.

Lemma rand_run shape dtype name w :
  rand rt shape dtype name w
  = let args := rand_args shape (default_dtype dtype "float32") name in
    match uniform_random rt args (fw w) with
    | (Ok out, s) =>
        (Ok out, {| fw := with_stop_gradient s out true;
                    trace := trace w ++ [EvLayer "uniform_random" args] |})
    | (Raise e, s) =>
        (Raise e, {| fw := s;
                     trace := trace w ++ [EvLayer "uniform_random" args] |})
    end.
Proof. unfold rand. apply layer_then_stop. Qed.

Lemma randn_run shape dtype name w :
  randn rt shape dtype name w
  = let args := randn_args shape (default_dtype dtype "float32") name in
    match gaussian_random rt args (fw w) with
    | (Ok out, s) =>
        (Ok out, {| fw := with_stop_gradient s out true;
                    trace := trace w ++ [EvLayer "gaussian_random" args] |})
    | (Raise e, s) =>
        (Raise e, {| fw := s;
                     trace := trace w ++ [EvLayer "gaussian_random" args] |})
    end.
Proof. unfold randn. apply layer_then_stop. Qed.

Lemma new_events_app w tr s :
  new_events w {| fw := s; trace := trace w ++ tr |} = tr.
Proof. unfold new_events. simpl. by rewrite drop_app_length. Qed.

(** *** Validation in graph mode *)

Lemma randint_dtype_supported t :
  t = INT32 \/ t = INT64 ->
  check_dtype t "dtype" ["int32"; "int64"] "randint" = Ok tt.
Proof. by intros [-> | ->]; vm_compute. Qed.

Lemma randint_dtype_unsupported t :
  t <> INT32 -> t <> INT64 ->
  exists msg,
    check_dtype t "dtype" ["int32"; "int64"] "randint" = Raise (TypeError msg).
Proof. intros H32 H64. destruct t; try done; vm_compute; eauto. Qed.

Lemma randperm_dtype_supported t :
  t = INT32 \/ t = INT64 \/ t = FP32 \/ t = FP64 ->
  check_dtype t "dtype" ["int64"; "int32"; "float32"; "float64"] "randperm"
  = Ok tt.
Proof. by intros [-> | [-> | [-> | ->]]]; vm_compute. Qed.

Lemma randperm_dtype_unsupported t :
  t <> INT32 -> t <> INT64 -> t <> FP32 -> t <> FP64 ->
  exists msg,
    check_dtype t "dtype" ["int64"; "int32"; "float32"; "float64"] "randperm"
    = Raise (TypeError msg).
Proof. intros H32 H64 Hf32 Hf64. destruct t; try done; vm_compute; eauto. Qed.

Lemma randint_graph_empty_range low high shape dtype name w t :
  dygraph_mode (fw w) = false ->
  resolve rt (default_dtype dtype "int64") = Ok t ->
  t = INT32 \/ t = INT64 ->
  isinstance shape [TList; TTuple; TVariable] = true ->
  ((randint_bounds low high).1 >=? (randint_bounds low high).2) = true ->
  randint rt low high shape dtype name w
  = (Raise (ValueError (randint_message (randint_bounds low high).1
                                        (randint_bounds low high).2)),
     {| fw := fw w;
        trace := trace w ++ coerce_events (default_dtype dtype "int64") |}).
Proof.
  intros Hmode Hres Ht Hshape Hge.
  rewrite (randint_graph _ _ _ _ _ _ _ Hmode Hres).
  rewrite check_type_ok by done.
  rewrite randint_dtype_supported by done.
  by rewrite Hge.
Qed.

(** C1 (amended).  A call of [randint] whose bounds, after the
    normalisation of [high=None], satisfy low >= high, whose shape is a
    list, a tuple or a Variable and whose data-type descriptor coerces to
    int32 or int64 raises a ValueError and returns no handle.  In graph mode
    it is the ValueError of [randint] itself, and the framework is left as
    it was.  In dygraph mode [randint] makes no check of its own: the
    ValueError is that of the operator binding, which rejects an empty
    range, once [_convert_shape_to_list] has accepted the shape. *)
Theorem randint_rejects_empty_range low high shape dtype name w t :
  binding_checks_bounds rt ->
  (dygraph_mode (fw w) = true ->
   exists sh s1, _convert_shape_to_list rt shape (fw w) = (Ok sh, s1)) ->
  resolve rt (default_dtype dtype "int64") = Ok t ->
  t = INT32 \/ t = INT64 ->
  isinstance shape [TList; TTuple; TVariable] = true ->
  (randint_bounds low high).2 <= (randint_bounds low high).1 ->
  is_ValueError (randint rt low high shape dtype name w).1 = true
  /\ (dygraph_mode (fw w) = false ->
      randint rt low high shape dtype name w
      = (Raise (ValueError (randint_message (randint_bounds low high).1
                                            (randint_bounds low high).2)),
         {| fw := fw w;
            trace := trace w ++ coerce_events (default_dtype dtype "int64") |})).
Proof.
  intros Hbinding Hconv Hres Ht Hshape Hle.
  assert (Hgraph : dygraph_mode (fw w) = false ->
            randint rt low high shape dtype name w
            = (Raise (ValueError (randint_message (randint_bounds low high).1
                                                  (randint_bounds low high).2)),
               {| fw := fw w;
                  trace := trace w
                             ++ coerce_events (default_dtype dtype "int64") |})).
  { intros Hmode.
    apply (randint_graph_empty_range _ _ _ _ _ _ t); try done.
    apply Z.geb_le, Hle. }
  split; [|exact Hgraph].
  destruct (dygraph_mode (fw w)) eqn:Hmode.
  - destruct (Hconv eq_refl) as (sh & s1 & Hsh).
    rewrite (randint_dygraph _ _ _ _ _ _ _ Hmode Hres), Hsh. simpl.
    by apply (Hbinding _ (randint_bounds low high).1 (randint_bounds low high).2).
  - by rewrite Hgraph.
Qed.

(** C2 (amended).  In graph mode, when the data-type descriptor is a member
    of the enumeration or is accepted by the coercion, a call of
    [randperm] with n < 1 raises the ValueError of [randperm]; no handle
    is returned and the framework is left as it was. *)
Theorem randperm_rejects_nonpositive n dtype name w t :
  dygraph_mode (fw w) = false ->
  resolve rt dtype = Ok t ->
  n < 1 ->
  randperm rt n dtype name w
  = (Raise (ValueError randperm_message),
     {| fw := fw w; trace := trace w ++ coerce_events dtype |}).
Proof.
  intros Hmode Hres Hn.
  rewrite (randperm_graph _ _ _ _ _ Hmode Hres).
  destruct (Z.ltb_spec n 1); [reflexivity | lia].
Qed.

(** C5 (amended).  In graph mode, a data-type descriptor that coerces to a
    member of the enumeration outside the supported ones is rejected with
    a TypeError and nothing is registered: by [randint] when the member is
    neither int32 nor int64, and by [randperm], called with n >= 1, when
    the member is none of int32, int64, float32 and float64. *)
Theorem unsupported_dtype_rejected low high shape dtype name n dtype' name' w t t' :
  dygraph_mode (fw w) = false ->
  resolve rt (default_dtype dtype "int64") = Ok t ->
  t <> INT32 -> t <> INT64 ->
  resolve rt dtype' = Ok t' ->
  t' <> INT32 -> t' <> INT64 -> t' <> FP32 -> t' <> FP64 ->
  1 <= n ->
  (is_TypeError (randint rt low high shape dtype name w).1 = true
   /\ fw (randint rt low high shape dtype name w).2 = fw w)
  /\ (is_TypeError (randperm rt n dtype' name' w).1 = true
      /\ fw (randperm rt n dtype' name' w).2 = fw w).
Proof.
  intros Hmode Hres H32 H64 Hres' H32' H64' Hf32 Hf64 Hn. split.
  - rewrite (randint_graph _ _ _ _ _ _ _ Hmode Hres).
    destruct (isinstance shape [TList; TTuple; TVariable]) eqn:Hshape.
    + rewrite check_type_ok by done.
      by destruct (randint_dtype_unsupported t H32 H64) as [msg ->].
    + pose proof (check_type_fails shape "shape" [TList; TTuple; TVariable]
                    "randint" Hshape) as Hc.
      by destruct (check_type shape "shape" _ "randint") as [|[]].
  - rewrite (randperm_graph _ _ _ _ _ Hmode Hres').
    destruct (Z.ltb_spec n 1); [lia|].
    by destruct (randperm_dtype_unsupported t' H32' H64' Hf32 Hf64) as [msg ->].
Qed.

(** C6 (amended).  In graph mode, when the data-type descriptor is a member
    of the enumeration or is accepted by the coercion, a call of [randint]
    whose shape is neither a list, nor a tuple, nor a Variable raises a
    TypeError and leaves the framework as it was. *)
Theorem randint_rejects_shape low high shape dtype name w t :
  dygraph_mode (fw w) = false ->
  resolve rt (default_dtype dtype "int64") = Ok t ->
  isinstance shape [TList; TTuple; TVariable] = false ->
  exists msg,
    randint rt low high shape dtype name w
    = (Raise (TypeError msg),
       {| fw := fw w;
          trace := trace w ++ coerce_events (default_dtype dtype "int64") |}).
Proof.
  intros Hmode Hres Hshape.
  rewrite (randint_graph _ _ _ _ _ _ _ Hmode Hres).
  unfold check_type. rewrite Hshape. eauto.
Qed.

(** *** Dispatch in dygraph mode *)

(** C3 (amended).  In dygraph mode [randint] and [randperm] make none of
    their own checks.  A descriptor that is not a member of the enumeration
    is coerced, and for [randint] the shape is converted by
    [_convert_shape_to_list]: an error of either ends the call before the
    operator binding is reached.  Otherwise the binding is invoked, for
    [randint] with the converted shape, the normalised bounds, seed 0 and
    the coerced type, for [randperm] with n, seed 0 and the coerced type,
    whatever the bounds, n and the member of the enumeration are, and its
    outcome is the outcome of the call. *)
Theorem dygraph_dispatch_skips_validation
    low high shape dtype name n dtype' name' w :
  dygraph_mode (fw w) = true ->
  randint rt low high shape dtype name w
  = (let d := default_dtype dtype "int64" in
     match resolve rt d with
     | Raise e => (Raise e, {| fw := fw w; trace := trace w ++ coerce_events d |})
     | Ok t =>
       match _convert_shape_to_list rt shape (fw w) with
       | (Raise e, s1) =>
           (Raise e, {| fw := s1; trace := trace w ++ coerce_events d |})
       | (Ok sh, s1) =>
           let args := [("shape", sh);
                        ("low", VInt (randint_bounds low high).1);
                        ("high", VInt (randint_bounds low high).2);
                        ("seed", VInt 0); ("dtype", VDType t)] in
           ((core_ops rt "randint" args s1).1,
            {| fw := (core_ops rt "randint" args s1).2;
               trace := trace w ++ coerce_events d ++ [EvOp "randint" args] |})
       end
     end)
  /\ randperm rt n dtype' name' w
     = match resolve rt dtype' with
       | Raise e =>
           (Raise e, {| fw := fw w; trace := trace w ++ coerce_events dtype' |})
       | Ok t =>
           let args := [("n", VInt n); ("seed", VInt 0); ("dtype", VDType t)] in
           ((core_ops rt "randperm" args (fw w)).1,
            {| fw := (core_ops rt "randperm" args (fw w)).2;
               trace := trace w ++ coerce_events dtype'
                          ++ [EvOp "randperm" args] |})
       end.
Proof.
  intros Hmode. split.
  - simpl. destruct (resolve rt (default_dtype dtype "int64")) as [t|e] eqn:Hres;
      [|by apply randint_coerce_fails].
    rewrite (randint_dygraph _ _ _ _ _ _ _ Hmode Hres).
    destruct (_convert_shape_to_list rt shape (fw w)) as [[sh|e] s1];
      [|reflexivity].
    simpl. by rewrite <- app_assoc.
  - destruct (resolve rt dtype') as [t|e] eqn:Hres;
      [|by apply randperm_coerce_fails].
    rewrite (randperm_dygraph _ _ _ _ _ Hmode Hres). simpl.
    by rewrite <- app_assoc.
Qed.

(** *** Defaults *)

(** C4.  A call of [rand] without a data type calls [uniform_random] with
    the data type 'float32', beside the shape, min 0.0, max 1.0 and the
    name, and returns the handle of that function; the tensor behind the
    handle, which [uniform_random] creates with the element type its
    argument stands for, has the type float32. *)
Theorem rand_default_dtype_is_float32 shape name w h :
  layer_honours_dtype rt ->
  convert_np_dtype_to_dtype_ rt (VStr "float32") = Ok FP32 ->
  (rand rt shape VNone name w).1 = Ok h ->
  (let args := [("shape", shape); ("dtype", VStr "float32");
                ("min", VFloat 0); ("max", VFloat 1); ("name", name)] in
   exists s,
     uniform_random rt args (fw w) = (Ok h, s)
     /\ rand rt shape VNone name w
        = (Ok h, {| fw := with_stop_gradient s h true;
                    trace := trace w ++ [EvLayer "uniform_random" args] |}))
  /\ var_dtype <$> heap (fw (rand rt shape VNone name w).2) !! h = Some FP32.
Proof.
  intros Hlayer Hconv Hok. rewrite rand_run in Hok |- *. simpl in *.
  destruct (uniform_random rt _ (fw w)) as [[out|e] s] eqn:Hcall; [|done].
  simpl in Hok. injection Hok as ->.
  split; [by exists s|]. simpl.
  destruct (Hlayer (rand_args shape (VStr "float32") name) (VStr "float32")
              _ _ _ eq_refl Hcall) as (t & Ht & Hvar).
  simpl in Ht. rewrite Hconv in Ht. injection Ht as <-.
  rewrite list_lookup_alter_eq.
  destruct (heap s !! h) as [o|]; [|done]. by simpl in *.
Qed.

(** C9.  [randint(low, high=None, ...)] is [randint(0, low, ...)] on every
    shape, data type, name and state, so the normalisation precedes all
    validation and dispatch; and in graph mode, with an accepted shape and
    a descriptor that coerces to int32 or int64, [randint(0, high=None)]
    raises the ValueError for the bounds 0 and 0. *)
Theorem randint_single_bound shape dtype name w t :
  dygraph_mode (fw w) = false ->
  resolve rt (default_dtype dtype "int64") = Ok t ->
  t = INT32 \/ t = INT64 ->
  isinstance shape [TList; TTuple; TVariable] = true ->
  (forall low shape' dtype' name' w',
      randint rt low None shape' dtype' name' w'
      = randint rt 0 (Some low) shape' dtype' name' w')
  /\ randint rt 0 None shape dtype name w
     = (Raise (ValueError (randint_message 0 0)),
        {| fw := fw w;
           trace := trace w ++ coerce_events (default_dtype dtype "int64") |}).
Proof.
  intros Hmode Hres Ht Hshape. split; [reflexivity|].
  by rewrite (randint_graph_empty_range 0 None shape dtype name w t).
Qed.

(** *** What the collaborators receive *)


Lemma coerce_events_fixed_params d :
  Forall (fun e => carries_fixed_params e = true) (coerce_events d).
Proof. destruct d; simpl; repeat constructor. Qed.


Lemma randperm_attrs_lookup n t :
  randperm_attrs n t !! "n" = Some (VInt n)
  /\ randperm_attrs n t !! "dtype" = Some (VDType t)
  /\ randperm_attrs n t !! "seed" = Some (VInt 0).
Proof. unfold randperm_attrs. by simplify_map_eq. Qed.

Lemma randint_attrs_lookup l h t :
  randint_attrs l h t !! "low" = Some (VInt l)
  /\ randint_attrs l h t !! "high" = Some (VInt h)
  /\ randint_attrs l h t !! "seed" = Some (VInt 0)
  /\ randint_attrs l h t !! "dtype" = Some (VDType t).
Proof. unfold randint_attrs. by simplify_map_eq. Qed.





Ltac new_events_of_run :=
  simpl; rewrite <- ?app_assoc; rewrite new_events_app.


(** *** The steps of a call *)

(** C7 (amended).  A call of [randint] or of [randperm] that returns a
    handle has coerced the descriptor to a member of the enumeration, by
    [convert_np_dtype_to_dtype_] exactly when it was not a member already,
    and then made the one dispatch its mode selects, carrying that member as
    the data type: to the operator binding of its name in dygraph mode, to a
    node of its name appended through the helper in graph mode (for the node
    of [randint], when [_get_shape_tensor_inputs] leaves the attributes it
    receives in place).  [rand] and [randn] do neither: whatever the mode,
    they resolve the default of the descriptor to 'float32', call their
    layer function with it, uncoerced, beside the fixed arguments, set
    [stop_gradient] on the handle it returns and return that handle. *)
Theorem wrappers_steps :
  (keeps_attrs rt ->
   forall low high shape dtype name w h,
     (randint rt low high shape dtype name w).1 = Ok h ->
     four_steps rt "randint" (default_dtype dtype "int64")
       (dygraph_mode (fw w))
       (new_events w (randint rt low high shape dtype name w).2))
  /\ (forall n dtype name w h,
        (randperm rt n dtype name w).1 = Ok h ->
        four_steps rt "randperm" dtype (dygraph_mode (fw w))
          (new_events w (randperm rt n dtype name w).2))
  /\ (forall shape dtype name w,
        rand rt shape dtype name w
        = (let args := [("shape", shape);
                        ("dtype", default_dtype dtype "float32");
                        ("min", VFloat 0); ("max", VFloat 1);
                        ("name", name)] in
           match uniform_random rt args (fw w) with
           | (Ok out, s) =>
               (Ok out, {| fw := with_stop_gradient s out true;
                           trace := trace w ++ [EvLayer "uniform_random" args] |})
           | (Raise e, s) =>
               (Raise e, {| fw := s;
                            trace := trace w ++ [EvLayer "uniform_random" args] |})
           end))
  /\ (forall shape dtype name w,
        randn rt shape dtype name w
        = (let args := [("shape", shape); ("mean", VFloat 0);
                        ("std", VFloat 1); ("seed", VInt 0);
                        ("dtype", default_dtype dtype "float32");
                        ("name", name)] in
           match gaussian_random rt args (fw w) with
           | (Ok out, s) =>
               (Ok out, {| fw := with_stop_gradient s out true;
                           trace := trace w ++ [EvLayer "gaussian_random" args] |})
           | (Raise e, s) =>
               (Raise e, {| fw := s;
                            trace := trace w ++ [EvLayer "gaussian_random" args] |})
           end)).
Proof.
  split; [|split; [|split]].
  - intros Hkeep low high shape dtype name w h Hok.
    destruct (resolve rt (default_dtype dtype "int64")) as [t|e] eqn:Hres;
      [|by rewrite (randint_coerce_fails _ _ _ _ _ _ _ Hres) in Hok].
    destruct (dygraph_mode (fw w)) eqn:Hmode.
    + rewrite (randint_dygraph _ _ _ _ _ _ _ Hmode Hres) in Hok |- *.
      destruct (_convert_shape_to_list rt shape (fw w)) as [[sh|e] s1];
        [|done].
      new_events_of_run. exists t. eexists. by repeat split.
    + rewrite (randint_graph _ _ _ _ _ _ _ Hmode Hres) in Hok |- *.
      destruct (check_type _ _ _ _); [|done].
      destruct (check_dtype _ _ _ _); [|done].
      destruct (_ >=? _); [done|].
      destruct (_get_shape_tensor_inputs _ _ _ _ _ _)
        as [[[ins ats]|e] s1] eqn:Hcall; [|done].
      simpl in Hok |- *.
      destruct (helper_append_op _ _ _) as [[[]|e] s2]; [|done].
      new_events_of_run. exists t. eexists.
      split; [done|]. split; [done|]. simpl.
      split; [done|]. split; [done|].
      destruct (randint_attrs_lookup (randint_bounds low high).1
                  (randint_bounds low high).2 t) as (_ & _ & _ & Hd).
      by eapply (Hkeep _ _ _ _ _ _ _ _ Hcall).
  - intros n dtype name w h Hok.
    destruct (resolve rt dtype) as [t|e] eqn:Hres;
      [|by rewrite (randperm_coerce_fails _ _ _ _ _ Hres) in Hok].
    destruct (dygraph_mode (fw w)) eqn:Hmode.
    + rewrite (randperm_dygraph _ _ _ _ _ Hmode Hres).
      new_events_of_run. exists t. eexists. by repeat split.
    + rewrite (randperm_graph _ _ _ _ _ Hmode Hres) in Hok |- *.
      destruct (n <? 1); [done|].
      destruct (check_dtype _ _ _ _); [|done].
      simpl in Hok |- *.
      destruct (helper_append_op _ _ _) as [[[]|e] s2]; [|done].
      new_events_of_run. exists t. eexists.
      split; [done|]. split; [done|]. simpl.
      split; [done|]. split; [done|].
      apply randperm_attrs_lookup.
  - intros. apply rand_run.
  - intros. apply randn_run.
Qed.

(** *** Effects on the framework *)



End Wrappers.

(** * The functions on the sample runtime *)

Lemma sample_keeps_attrs : keeps_attrs Sample.runtime.
Proof.
  intros ins ats shape op s ins' ats' s' Hcall k v Hk Hv.
  simpl in Hcall. unfold Sample.shape_inputs in Hcall.
  destruct shape; simplify_eq; try done; by rewrite lookup_insert_ne.
Qed.

Lemma sample_layer_honours_dtype : layer_honours_dtype Sample.runtime.
Proof.
  intros args d s h s' Hd Hcall. simpl in Hcall.
  unfold Sample.layer in Hcall. rewrite Hd in Hcall. simpl in Hcall.
  destruct (Sample.convert d) as [t|e] eqn:Hconv; [|done].
  unfold Sample.new_object in Hcall. injection Hcall as <- <-.
  exists t. split.
  - by destruct d.
  - simpl. by rewrite list_lookup_middle.
Qed.

Lemma eager_binding_checks_bounds : binding_checks_bounds Eager.runtime.
Proof.
  intros args l h s Hl Hh Hle. simpl.
  unfold Eager.ops, Eager.empty_range. rewrite Hl, Hh. simpl.
  by destruct (Z.leb_spec h l); [|lia].
Qed.


(** ** C1 *)

(** C1 as stated fails.  With low = 5 and high = 1, in graph mode: with the
    shape 3 the TypeError of the shape check comes first, and with the data
    type float32 the TypeError of the data-type check. *)
Lemma randint_empty_range_not_always_ValueError :
  (randint_bounds 5 (Some 1)).2 <= (randint_bounds 5 (Some 1)).1
  /\ is_ValueError
       (randint Sample.runtime 5 (Some 1) (VInt 3) (VDType INT64) VNone
          Sample.graph).1 = false
  /\ is_TypeError
       (randint Sample.runtime 5 (Some 1) (VInt 3) (VDType INT64) VNone
          Sample.graph).1 = true
  /\ is_ValueError
       (randint Sample.runtime 5 (Some 1) randint_default_shape (VDType FP32)
          VNone Sample.graph).1 = false
  /\ is_TypeError
       (randint Sample.runtime 5 (Some 1) randint_default_shape (VDType FP32)
          VNone Sample.graph).1 = true.
Proof. repeat split; [simpl; lia | vm_compute; reflexivity ..]. Qed.

Lemma randint_rejects_empty_range_witness :
  binding_checks_bounds Eager.runtime
  /\ (exists sh s1,
        _convert_shape_to_list Eager.runtime randint_default_shape
          (fw Sample.dygraph) = (Ok sh, s1))
  /\ resolve Eager.runtime (default_dtype VNone "int64") = Ok INT64
  /\ isinstance randint_default_shape [TList; TTuple; TVariable] = true
  /\ (randint_bounds 5 (Some 1)).2 <= (randint_bounds 5 (Some 1)).1
  /\ is_ValueError
       (randint Eager.runtime 5 (Some 1) randint_default_shape VNone VNone
          Sample.dygraph).1 = true
  /\ randint Eager.runtime 5 (Some 1) randint_default_shape VNone VNone
       Sample.graph
     = (Raise (ValueError (randint_message 5 1)),
        {| fw := fw Sample.graph; trace := [EvCoerce (VStr "int64")] |}).
Proof.
  split; [exact eager_binding_checks_bounds|].
  split; [by eexists _, _|].
  split; [reflexivity|]. split; [reflexivity|]. split; [simpl; lia|].
  split.
  - apply (randint_rejects_empty_range Eager.runtime 5 (Some 1)
             randint_default_shape VNone VNone Sample.dygraph INT64);
      [exact eager_binding_checks_bounds | by eexists _, _ | reflexivity
      | right; reflexivity | reflexivity | simpl; lia].
  - apply (randint_rejects_empty_range Eager.runtime 5 (Some 1)
             randint_default_shape VNone VNone Sample.graph INT64);
      [exact eager_binding_checks_bounds | discriminate | reflexivity
      | right; reflexivity | reflexivity | simpl; lia | reflexivity].
Defined.

(** ** C2 *)

(** C2 as stated fails.  With n = 0: in dygraph mode the call returns the
    handle of the operator binding; in graph mode, with the descriptor 7,
    the error of the coercion comes first. *)
Lemma randperm_nonpositive_not_always_ValueError :
  0 < 1
  /\ (randperm Sample.runtime 0 randperm_default_dtype VNone Sample.dygraph).1
     = Ok 0%nat
  /\ is_ValueError
       (randperm Sample.runtime 0 (VInt 7) VNone Sample.graph).1 = false.
Proof. repeat split; vm_compute; reflexivity. Qed.

Lemma randperm_rejects_nonpositive_witness :
  dygraph_mode (fw Sample.graph) = false
  /\ resolve Sample.runtime randperm_default_dtype = Ok INT64
  /\ 0 < 1
  /\ randperm Sample.runtime 0 randperm_default_dtype VNone Sample.graph
     = (Raise (ValueError randperm_message),
        {| fw := fw Sample.graph; trace := [EvCoerce (VStr "int64")] |}).
Proof.
  split; [reflexivity|]. split; [reflexivity|]. split; [lia|].
  apply (randperm_rejects_nonpositive Sample.runtime 0 randperm_default_dtype
           VNone Sample.graph INT64); [reflexivity | reflexivity | lia].
Defined.

(** ** C3 *)

(** C3 as stated fails for the shape and for a descriptor that does not
    coerce.  In dygraph mode the shape 3 ends the call in
    [_convert_shape_to_list], and the descriptor 'foo' ends [randint] and
    [randperm] in the coercion, with a TypeError: in neither case is the
    operator binding invoked. *)
Lemma dygraph_invalid_input_stops_before_binding :
  dygraph_mode (fw Sample.dygraph) = true
  /\ isinstance (VInt 3) [TList; TTuple; TVariable] = false
  /\ is_Ok (randint Sample.runtime 0 (Some 5) (VInt 3) VNone VNone
              Sample.dygraph).1 = false
  /\ Forall (fun e => is_invocation e = false)
       (new_events Sample.dygraph
          (randint Sample.runtime 0 (Some 5) (VInt 3) VNone VNone
             Sample.dygraph).2)
  /\ is_TypeError
       (randint Sample.runtime 0 (Some 5) randint_default_shape (VStr "foo")
          VNone Sample.dygraph).1 = true
  /\ Forall (fun e => is_invocation e = false)
       (new_events Sample.dygraph
          (randint Sample.runtime 0 (Some 5) randint_default_shape
             (VStr "foo") VNone Sample.dygraph).2)
  /\ is_TypeError
       (randperm Sample.runtime 3 (VStr "foo") VNone Sample.dygraph).1 = true
  /\ Forall (fun e => is_invocation e = false)
       (new_events Sample.dygraph
          (randperm Sample.runtime 3 (VStr "foo") VNone Sample.dygraph).2).
Proof.
  repeat split; try (vm_compute; reflexivity);
    vm_compute; repeat constructor.
Qed.

Lemma dygraph_dispatch_skips_validation_witness :
  dygraph_mode (fw Sample.dygraph) = true
  /\ randint Sample.runtime 5 (Some 1) (VTuple [VInt (-2)]) (VDType FP32)
       VNone Sample.dygraph
     = (Ok 0%nat,
        {| fw := {| dygraph_mode := true;
                    heap := [{| var_dtype := FP32; stop_gradient := false |}];
                    block_ops := [] |};
           trace := [EvOp "randint"
                       [("shape", VList [VInt (-2)]); ("low", VInt 5);
                        ("high", VInt 1); ("seed", VInt 0);
                        ("dtype", VDType FP32)]] |})
  /\ randperm Sample.runtime 0 (VDType BOOL) VNone Sample.dygraph
     = (Ok 0%nat,
        {| fw := {| dygraph_mode := true;
                    heap := [{| var_dtype := BOOL; stop_gradient := false |}];
                    block_ops := [] |};
           trace := [EvOp "randperm"
                       [("n", VInt 0); ("seed", VInt 0);
                        ("dtype", VDType BOOL)]] |}).
Proof.
  split; [reflexivity|].
  destruct (dygraph_dispatch_skips_validation Sample.runtime 5 (Some 1)
              (VTuple [VInt (-2)]) (VDType FP32) VNone 0 (VDType BOOL) VNone
              Sample.dygraph eq_refl) as [Hint Hperm].
  split; [rewrite Hint | rewrite Hperm]; reflexivity.
Defined.

(** ** C4 *)

Lemma rand_default_dtype_is_float32_witness :
  layer_honours_dtype Sample.runtime
  /\ convert_np_dtype_to_dtype_ Sample.runtime (VStr "float32") = Ok FP32
  /\ (rand Sample.runtime randint_default_shape VNone VNone Sample.graph).1
     = Ok 0%nat
  /\ var_dtype
       <$> heap (fw (rand Sample.runtime randint_default_shape VNone VNone
                       Sample.graph).2) !! 0%nat
     = Some FP32.
Proof.
  split; [exact sample_layer_honours_dtype|]. split; [reflexivity|].
  split; [reflexivity|].
  apply (rand_default_dtype_is_float32 Sample.runtime randint_default_shape
           VNone Sample.graph 0%nat sample_layer_honours_dtype);
    reflexivity.
Defined.

(** ** C5 *)

(** C5 as stated fails.  In dygraph mode [randint] with float32 and
    [randperm] with bool return the handle of the operator binding; in graph
    mode [randperm] with bool and n = 0 raises the ValueError for n, which
    is checked first. *)
Lemma unsupported_dtype_not_always_TypeError :
  (randint Sample.runtime 0 (Some 5) randint_default_shape (VDType FP32) VNone
     Sample.dygraph).1 = Ok 0%nat
  /\ (randperm Sample.runtime 3 (VDType BOOL) VNone Sample.dygraph).1
     = Ok 0%nat
  /\ (randperm Sample.runtime 0 (VDType BOOL) VNone Sample.graph).1
     = Raise (ValueError randperm_message).
Proof. repeat split; vm_compute; reflexivity. Qed.

Lemma unsupported_dtype_rejected_witness :
  dygraph_mode (fw Sample.graph) = false
  /\ resolve Sample.runtime (default_dtype (VStr "float32") "int64") = Ok FP32
  /\ resolve Sample.runtime (VDType BOOL) = Ok BOOL
  /\ 1 <= 3
  /\ (is_TypeError
        (randint Sample.runtime 0 (Some 5) randint_default_shape
           (VStr "float32") VNone Sample.graph).1 = true
      /\ fw (randint Sample.runtime 0 (Some 5) randint_default_shape
               (VStr "float32") VNone Sample.graph).2 = fw Sample.graph)
  /\ (is_TypeError
        (randperm Sample.runtime 3 (VDType BOOL) VNone Sample.graph).1 = true
      /\ fw (randperm Sample.runtime 3 (VDType BOOL) VNone Sample.graph).2
         = fw Sample.graph).
Proof.
  split; [reflexivity|]. split; [reflexivity|]. split; [reflexivity|].
  split; [lia|].
  apply (unsupported_dtype_rejected Sample.runtime 0 (Some 5)
           randint_default_shape (VStr "float32") VNone 3 (VDType BOOL) VNone
           Sample.graph FP32 BOOL);
    first [reflexivity | discriminate | lia].
Defined.

(** ** C6 *)

(** C6 as stated fails.  In dygraph mode the shape 3 is not checked by
    [randint]: it goes to [_convert_shape_to_list], and what comes back is
    the error of that function, here not a TypeError. *)
Lemma randint_shape_not_always_TypeError :
  isinstance (VInt 3) [TList; TTuple; TVariable] = false
  /\ randint Sample.runtime 0 (Some 5) (VInt 3) VNone VNone Sample.dygraph
     = (Raise (OtherError "AttributeError" "no attribute 'numpy'"),
        {| fw := fw Sample.dygraph; trace := [EvCoerce (VStr "int64")] |}).
Proof. split; vm_compute; reflexivity. Qed.

Lemma randint_rejects_shape_witness :
  dygraph_mode (fw Sample.graph) = false
  /\ resolve Sample.runtime (default_dtype VNone "int64") = Ok INT64
  /\ isinstance (VInt 3) [TList; TTuple; TVariable] = false
  /\ exists msg,
       randint Sample.runtime 0 (Some 5) (VInt 3) VNone VNone Sample.graph
       = (Raise (TypeError msg),
          {| fw := fw Sample.graph; trace := [EvCoerce (VStr "int64")] |}).
Proof.
  split; [reflexivity|]. split; [reflexivity|]. split; [reflexivity|].
  apply (randint_rejects_shape Sample.runtime 0 (Some 5) (VInt 3) VNone VNone
           Sample.graph INT64); reflexivity.
Defined.

(** ** C7 *)

(** C7 as stated fails for [rand] and [randn].  A call of [rand] that
    returns a handle has made one invocation, of the layer function: its
    trace is not that of a coercion followed by a dispatch to an operator
    binding or to a node, for any operator, descriptor and mode; and so for
    [randn]. *)
Lemma rand_does_not_follow_four_steps :
  is_Ok (rand Sample.runtime randint_default_shape VNone VNone Sample.graph).1
  = true
  /\ (forall op d dyg,
        ~ four_steps Sample.runtime op d dyg
            (new_events Sample.graph
               (rand Sample.runtime randint_default_shape VNone VNone
                  Sample.graph).2))
  /\ is_Ok (randn Sample.runtime randint_default_shape VNone VNone
              Sample.dygraph).1 = true
  /\ (forall op d dyg,
        ~ four_steps Sample.runtime op d dyg
            (new_events Sample.dygraph
               (randn Sample.runtime randint_default_shape VNone VNone
                  Sample.dygraph).2)).
Proof.
  split; [reflexivity|]. split; [|split; [reflexivity|]].
  - intros op d dyg (t & e & _ & Hev & He).
    vm_compute in Hev. destruct d, e; try done.
  - intros op d dyg (t & e & _ & Hev & He).
    vm_compute in Hev. destruct d, e; try done.
Qed.

Lemma wrappers_steps_witness :
  keeps_attrs Sample.runtime
  /\ (randint Sample.runtime 0 (Some 5) randint_default_shape VNone VNone
        Sample.graph).1 = Ok 0%nat
  /\ four_steps Sample.runtime "randint" (VStr "int64") false
       (new_events Sample.graph
          (randint Sample.runtime 0 (Some 5) randint_default_shape VNone VNone
             Sample.graph).2)
  /\ (randperm Sample.runtime 3 (VDType INT32) VNone Sample.dygraph).1
     = Ok 0%nat
  /\ four_steps Sample.runtime "randperm" (VDType INT32) true
       (new_events Sample.dygraph
          (randperm Sample.runtime 3 (VDType INT32) VNone Sample.dygraph).2).
Proof.
  split; [exact sample_keeps_attrs|]. split; [reflexivity|].
  destruct (wrappers_steps Sample.runtime) as (Hint & Hperm & _).
  split; [|split; [reflexivity|]].
  - apply (Hint sample_keeps_attrs 0 (Some 5) randint_default_shape VNone
             VNone Sample.graph 0%nat). reflexivity.
  - apply (Hperm 3 (VDType INT32) VNone Sample.dygraph 0%nat). reflexivity.
Defined.

(** ** C8 *)


(** ** C9 *)

Lemma randint_single_bound_witness :
  dygraph_mode (fw Sample.graph) = false
  /\ resolve Sample.runtime (default_dtype VNone "int64") = Ok INT64
  /\ isinstance randint_default_shape [TList; TTuple; TVariable] = true
  /\ randint Sample.runtime 7 None randint_default_shape VNone VNone
       Sample.dygraph
     = randint Sample.runtime 0 (Some 7) randint_default_shape VNone VNone
         Sample.dygraph
  /\ randint Sample.runtime 0 None randint_default_shape VNone VNone
       Sample.graph
     = (Raise (ValueError (randint_message 0 0)),
        {| fw := fw Sample.graph; trace := [EvCoerce (VStr "int64")] |}).
Proof.
  split; [reflexivity|]. split; [reflexivity|]. split; [reflexivity|].
  destruct (randint_single_bound Sample.runtime randint_default_shape VNone
              VNone Sample.graph INT64)
    as [Hnorm Hzero]; [reflexivity | reflexivity | right; reflexivity
                      | reflexivity |].
  split; [apply Hnorm | exact Hzero].
Defined.

(** ** C10 *)


(** * Further properties of the four functions *)

Section Outcomes.

Variable rt : Runtime.

Ltac events_of_run :=
  simpl; rewrite <- ?app_assoc; rewrite new_events_app.

Lemma coerce_events_failed d e :
  resolve rt d = Raise e -> coerce_events d = [EvCoerce d].
Proof. by destruct d. Qed.

Lemma coerce_events_allowed dyg d :
  Forall (fun e => dispatch_allowed dyg e = true) (coerce_events d).
Proof. destruct d; simpl; repeat constructor. Qed.

Lemma randint_dtype_cases t :
  (randint_supported t
   /\ check_dtype t "dtype" ["int32"; "int64"] "randint" = Ok tt)
  \/ (~ randint_supported t
      /\ exists msg,
           check_dtype t "dtype" ["int32"; "int64"] "randint"
           = Raise (TypeError msg)).
Proof.
  unfold randint_supported.
  destruct t;
    first [ left; split; [tauto | reflexivity]
          | right; split; [intros [|]; discriminate | vm_compute; eauto] ].
Qed.

Lemma randperm_dtype_cases t :
  (randperm_supported t
   /\ check_dtype t "dtype" ["int64"; "int32"; "float32"; "float64"] "randperm"
      = Ok tt)
  \/ (~ randperm_supported t
      /\ exists msg,
           check_dtype t "dtype" ["int64"; "int32"; "float32"; "float64"]
             "randperm" = Raise (TypeError msg)).
Proof.
  unfold randperm_supported.
  destruct t;
    first [ left; split; [tauto | reflexivity]
          | right; split; [intros [|[|[|]]]; discriminate | vm_compute; eauto] ].
Qed.

(** X1.  When the data-type descriptor is not a member of the enumeration
    and the coercion rejects it, [randint] and [randperm] raise the error of
    the coercion, in dygraph mode and in graph mode alike: the framework is
    left as it was and the coercion is the only collaborator that was
    called. *)
Theorem coercion_error_propagates
    low high shape dtype name n dtype' name' w e e' :
  resolve rt (default_dtype dtype "int64") = Raise e ->
  resolve rt dtype' = Raise e' ->
  randint rt low high shape dtype name w
  = (Raise e, {| fw := fw w;
                 trace := trace w ++ [EvCoerce (default_dtype dtype "int64")] |})
  /\ randperm rt n dtype' name' w
     = (Raise e', {| fw := fw w; trace := trace w ++ [EvCoerce dtype'] |}).
Proof.
  intros Hres Hres'. split.
  - rewrite (randint_coerce_fails rt _ _ _ _ _ _ _ Hres).
    by rewrite (coerce_events_failed _ _ Hres).
  - rewrite (randperm_coerce_fails rt _ _ _ _ _ Hres').
    by rewrite (coerce_events_failed _ _ Hres').
Qed.

(** X2.  A data type given as a member of the enumeration is used as it is:
    on such a call the outcome of [randint] and of [randperm] is the same
    whatever the coercion function of the runtime does, and no coercion is
    recorded. *)
Theorem enum_dtype_is_not_coerced
    (f : PyVal -> Result VarType) low high shape t name n w :
  (randint (with_convert rt f) low high shape (VDType t) name w
   = randint rt low high shape (VDType t) name w
   /\ Forall (fun e => is_invocation e = true)
        (new_events w (randint rt low high shape (VDType t) name w).2))
  /\ (randperm (with_convert rt f) n (VDType t) name w
      = randperm rt n (VDType t) name w
      /\ Forall (fun e => is_invocation e = true)
           (new_events w (randperm rt n (VDType t) name w).2)).
Proof.
  split; (split; [reflexivity|]).
  - destruct (dygraph_mode (fw w)) eqn:Hmode.
    + rewrite (randint_dygraph rt _ _ _ (VDType t) _ _ t Hmode eq_refl).
      destruct (_convert_shape_to_list rt shape (fw w)) as [[sh|e] s1];
        events_of_run; repeat constructor.
    + rewrite (randint_graph rt _ _ _ (VDType t) _ _ t Hmode eq_refl).
      destruct (check_type _ _ _ _); [|events_of_run; constructor].
      destruct (check_dtype _ _ _ _); [|events_of_run; constructor].
      destruct (_ >=? _); [events_of_run; constructor|].
      destruct (_get_shape_tensor_inputs _ _ _ _ _ _) as [[[ins ats]|e] s1];
        [|events_of_run; constructor].
      simpl. destruct (helper_append_op _ _ _) as [[[]|e] s2];
        events_of_run; repeat constructor.
  - destruct (dygraph_mode (fw w)) eqn:Hmode.
    + rewrite (randperm_dygraph rt _ (VDType t) _ _ t Hmode eq_refl).
      events_of_run. repeat constructor.
    + rewrite (randperm_graph rt _ (VDType t) _ _ t Hmode eq_refl).
      destruct (n <? 1); [events_of_run; constructor|].
      destruct (check_dtype _ _ _ _); [|events_of_run; constructor].
      simpl. destruct (helper_append_op _ _ _) as [[[]|e] s2];
        events_of_run; repeat constructor.
Qed.

(** X3.  Whatever the arguments and whatever the outcome, [randint] and
    [randperm] invoke the operator binding only in dygraph mode and append a
    node only in graph mode, and they never call a layer function. *)
Theorem dispatch_respects_mode low high shape dtype name n dtype' name' w :
  Forall (fun e => dispatch_allowed (dygraph_mode (fw w)) e = true)
    (new_events w (randint rt low high shape dtype name w).2)
  /\ Forall (fun e => dispatch_allowed (dygraph_mode (fw w)) e = true)
       (new_events w (randperm rt n dtype' name' w).2).
Proof.
  split.
  - destruct (resolve rt (default_dtype dtype "int64")) as [t|e] eqn:Hres.
    + destruct (dygraph_mode (fw w)) eqn:Hmode.
      * rewrite (randint_dygraph rt _ _ _ _ _ _ _ Hmode Hres).
        destruct (_convert_shape_to_list rt shape (fw w)) as [[sh|e] s1];
          events_of_run; [|apply coerce_events_allowed].
        apply Forall_app. split; [apply coerce_events_allowed|].
        repeat constructor.
      * rewrite (randint_graph rt _ _ _ _ _ _ _ Hmode Hres).
        destruct (check_type _ _ _ _);
          [|events_of_run; apply coerce_events_allowed].
        destruct (check_dtype _ _ _ _);
          [|events_of_run; apply coerce_events_allowed].
        destruct (_ >=? _); [events_of_run; apply coerce_events_allowed|].
        destruct (_get_shape_tensor_inputs _ _ _ _ _ _) as [[[ins ats]|e] s1];
          [|events_of_run; apply coerce_events_allowed].
        simpl. destruct (helper_append_op _ _ _) as [[[]|e] s2];
          events_of_run;
          (apply Forall_app; split; [apply coerce_events_allowed|];
           repeat constructor).
    + rewrite (randint_coerce_fails rt _ _ _ _ _ _ _ Hres).
      events_of_run. apply coerce_events_allowed.
  - destruct (resolve rt dtype') as [t|e] eqn:Hres.
    + destruct (dygraph_mode (fw w)) eqn:Hmode.
      * rewrite (randperm_dygraph rt _ _ _ _ _ Hmode Hres). events_of_run.
        apply Forall_app. split; [apply coerce_events_allowed|].
        repeat constructor.
      * rewrite (randperm_graph rt _ _ _ _ _ Hmode Hres).
        destruct (n <? 1); [events_of_run; apply coerce_events_allowed|].
        destruct (check_dtype _ _ _ _);
          [|events_of_run; apply coerce_events_allowed].
        simpl. destruct (helper_append_op _ _ _) as [[[]|e] s2];
          events_of_run;
          (apply Forall_app; split; [apply coerce_events_allowed|];
           repeat constructor).
    + rewrite (randperm_coerce_fails rt _ _ _ _ _ Hres).
      events_of_run. apply coerce_events_allowed.
Qed.

(** X4.  In graph mode a call of [randperm] that returns a handle was made
    with valid arguments: the descriptor coerced to one of int32, int64,
    float32 and float64 and n >= 1.  The handle is the next free one,
    [append_op] accepted the node, and [stop_gradient] was written on the
    state [append_op] left.  With n < 1, or with another member of the
    enumeration, the call raises and the framework is exactly as it was. *)
Theorem randperm_graph_success_implies_valid n dtype name w :
  dygraph_mode (fw w) = false ->
  (forall h,
     (randperm rt n dtype name w).1 = Ok h ->
     exists t s2,
       resolve rt dtype = Ok t
       /\ 1 <= n
       /\ randperm_supported t
       /\ h = length (heap (fw w))
       /\ helper_append_op rt
            {| op_type := "randperm"; op_inputs := ∅;
               op_outputs := {["Out" := VVar h]};
               op_attrs := <["n" := VInt n]> (<["dtype" := VDType t]>
                             (<["seed" := VInt 0]> ∅)) |}
            (with_variable (fw w) {| var_dtype := t; stop_gradient := false |})
          = (Ok tt, s2)
       /\ fw (randperm rt n dtype name w).2 = with_stop_gradient s2 h true)
  /\ (forall t,
        resolve rt dtype = Ok t ->
        n < 1 \/ ~ randperm_supported t ->
        is_Ok (randperm rt n dtype name w).1 = false
        /\ fw (randperm rt n dtype name w).2 = fw w).
Proof.
  intros Hmode. split.
  - intros h Hok.
    destruct (resolve rt dtype) as [t|e] eqn:Hres;
      [|by rewrite (randperm_coerce_fails rt _ _ _ _ _ Hres) in Hok].
    rewrite (randperm_graph rt _ _ _ _ _ Hmode Hres) in Hok |- *.
    destruct (Z.ltb_spec n 1) as [Hn|Hn]; [done|].
    destruct (randperm_dtype_cases t) as [[Hsup Hdt]|[_ [msg Hdt]]];
      rewrite Hdt in Hok |- *; [|done].
    simpl in Hok |- *. unfold randperm_attrs in *.
    destruct (helper_append_op _ _ _) as [[[]|e] s2] eqn:Happend; [|done].
    simpl in Hok |- *. injection Hok as <-.
    exists t, s2. by repeat split.
  - intros t Hres Hbad.
    rewrite (randperm_graph rt _ _ _ _ _ Hmode Hres).
    destruct (Z.ltb_spec n 1) as [Hn|Hn]; [done|].
    destruct Hbad as [Hlt|Hunsup]; [lia|].
    destruct (randperm_dtype_cases t) as [[Hsup _]|[_ [msg ->]]]; done.
Qed.

(** X5.  In graph mode a call of [randint] that returns a handle was made
    with valid arguments: the descriptor coerced to int32 or int64, the shape
    is a list, a tuple or a Variable, the normalised bounds satisfy
    low < high, and [_get_shape_tensor_inputs] accepted the shape; the handle
    is the next free one of the state that helper left. *)
Theorem randint_graph_success_implies_valid low high shape dtype name w h :
  dygraph_mode (fw w) = false ->
  (randint rt low high shape dtype name w).1 = Ok h ->
  exists t ins ats s1,
    resolve rt (default_dtype dtype "int64") = Ok t
    /\ randint_supported t
    /\ isinstance shape [TList; TTuple; TVariable] = true
    /\ (randint_bounds low high).1 < (randint_bounds low high).2
    /\ _get_shape_tensor_inputs rt ∅
         (randint_attrs (randint_bounds low high).1
            (randint_bounds low high).2 t)
         shape "randint" (fw w) = (Ok (ins, ats), s1)
    /\ h = length (heap s1).
Proof.
  intros Hmode Hok.
  destruct (resolve rt (default_dtype dtype "int64")) as [t|e] eqn:Hres;
    [|by rewrite (randint_coerce_fails rt _ _ _ _ _ _ _ Hres) in Hok].
  rewrite (randint_graph rt _ _ _ _ _ _ _ Hmode Hres) in Hok.
  unfold check_type in Hok.
  destruct (isinstance shape [TList; TTuple; TVariable]) eqn:Hshape; [|done].
  destruct (randint_dtype_cases t) as [[Hsup Hdt]|[_ [msg Hdt]]];
    rewrite Hdt in Hok; [|done].
  destruct (Z.geb_spec (randint_bounds low high).1 (randint_bounds low high).2)
    as [Hge|Hlt]; [done|].
  destruct (_get_shape_tensor_inputs _ _ _ _ _ _) as [[[ins ats]|e] s1] eqn:Hcall;
    [|done].
  simpl in Hok. destruct (helper_append_op _ _ _) as [[[]|e] s2]; [|done].
  simpl in Hok. exists t, ins, ats, s1. repeat split; try done. congruence.
Qed.

(** X6.  The node a valid graph-mode call hands to [append_op].  For
    [randperm] it is the only invocation of the call: a [randperm] node
    without inputs, whose attributes are exactly n, the coerced type and
    seed 0; when the call returns a handle, the output of the node is that
    handle.  For [randint] it is a [randint] node whose inputs are those
    [_get_shape_tensor_inputs] returned and whose attributes carry the
    normalised bounds, seed 0 and the coerced type, when that helper leaves
    the attributes it receives in place; when the call returns a handle,
    the output of the node is that handle. *)
Theorem registered_node_matches_call :
  (forall n dtype name w t,
     dygraph_mode (fw w) = false ->
     resolve rt dtype = Ok t ->
     randperm_supported t ->
     1 <= n ->
     exists d,
       new_events w (randperm rt n dtype name w).2
       = coerce_events dtype ++ [EvAppendOp d]
       /\ op_type d = "randperm"
       /\ op_inputs d = ∅
       /\ op_attrs d !! "n" = Some (VInt n)
       /\ op_attrs d !! "dtype" = Some (VDType t)
       /\ op_attrs d !! "seed" = Some (VInt 0)
       /\ (forall k, k <> "n" -> k <> "dtype" -> k <> "seed" ->
           op_attrs d !! k = None)
       /\ (forall h, (randperm rt n dtype name w).1 = Ok h ->
           op_outputs d = {["Out" := VVar h]}))
  /\ (keeps_attrs rt ->
      forall low high shape dtype name w t ins ats s1,
        dygraph_mode (fw w) = false ->
        resolve rt (default_dtype dtype "int64") = Ok t ->
        randint_supported t ->
        isinstance shape [TList; TTuple; TVariable] = true ->
        (randint_bounds low high).1 < (randint_bounds low high).2 ->
        _get_shape_tensor_inputs rt ∅
          (<["low" := VInt (randint_bounds low high).1]>
             (<["high" := VInt (randint_bounds low high).2]>
                (<["seed" := VInt 0]> (<["dtype" := VDType t]> ∅))))
          shape "randint" (fw w) = (Ok (ins, ats), s1) ->
        exists d,
          new_events w (randint rt low high shape dtype name w).2
          = coerce_events (default_dtype dtype "int64") ++ [EvAppendOp d]
          /\ op_type d = "randint"
          /\ op_inputs d = ins
          /\ op_attrs d !! "low" = Some (VInt (randint_bounds low high).1)
          /\ op_attrs d !! "high" = Some (VInt (randint_bounds low high).2)
          /\ op_attrs d !! "seed" = Some (VInt 0)
          /\ op_attrs d !! "dtype" = Some (VDType t)
          /\ (forall h, (randint rt low high shape dtype name w).1 = Ok h ->
              op_outputs d = {["Out" := VVar h]})).
Proof.
  split.
  - intros n dtype name w t Hmode Hres Hsup Hn.
    rewrite (randperm_graph rt _ _ _ _ _ Hmode Hres).
    destruct (Z.ltb_spec n 1); [lia|].
    rewrite randperm_dtype_supported by done. simpl.
    eexists. split.
    { destruct (helper_append_op _ _ _) as [[[]|e] s2]; events_of_run;
        reflexivity. }
    simpl. unfold randperm_attrs.
    repeat split; try by simplify_map_eq.
    + intros k Hk1 Hk2 Hk3. by simplify_map_eq.
    + intros h Hok.
      destruct (helper_append_op _ _ _) as [[[]|e] s2]; [|done].
      simpl in Hok. by injection Hok as <-.
  - intros Hkeep low high shape dtype name w t ins ats s1
      Hmode Hres Hsup Hshape Hlt Hcall.
    rewrite (randint_graph rt _ _ _ _ _ _ _ Hmode Hres).
    rewrite check_type_ok by done.
    rewrite randint_dtype_supported by done.
    destruct (Z.geb_spec (randint_bounds low high).1
                (randint_bounds low high).2); [lia|].
    unfold randint_attrs. rewrite Hcall. simpl.
    pose proof (Hkeep _ _ _ _ _ _ _ _ Hcall) as Hk.
    eexists. split.
    { destruct (helper_append_op _ _ _) as [[[]|e] s2]; events_of_run;
        reflexivity. }
    simpl. repeat split; try (apply Hk; [done|by simplify_map_eq]).
    intros h Hok.
    destruct (helper_append_op _ _ _) as [[[]|e] s2]; [|done].
    simpl in Hok. by injection Hok as <-.
Qed.



(** X10.  When [append_op] refuses the node of a graph-mode call that
    passed the checks, the call raises the error of [append_op].  The
    Variable was created before, so the state is the one [append_op] left
    of the framework with that Variable, and [randperm] has not written
    [stop_gradient]. *)
Theorem append_error_ends_call :
  (forall n dtype name w t e s2,
     dygraph_mode (fw w) = false ->
     resolve rt dtype = Ok t ->
     randperm_supported t ->
     1 <= n ->
     helper_append_op rt
       {| op_type := "randperm"; op_inputs := ∅;
          op_outputs := {["Out" := VVar (length (heap (fw w)))]};
          op_attrs := <["n" := VInt n]> (<["dtype" := VDType t]>
                        (<["seed" := VInt 0]> ∅)) |}
       (with_variable (fw w) {| var_dtype := t; stop_gradient := false |})
     = (Raise e, s2) ->
     (randperm rt n dtype name w).1 = Raise e
     /\ fw (randperm rt n dtype name w).2 = s2)
  /\ (forall low high shape dtype name w t ins ats s1 e s2,
        dygraph_mode (fw w) = false ->
        resolve rt (default_dtype dtype "int64") = Ok t ->
        randint_supported t ->
        isinstance shape [TList; TTuple; TVariable] = true ->
        (randint_bounds low high).1 < (randint_bounds low high).2 ->
        _get_shape_tensor_inputs rt ∅
          (<["low" := VInt (randint_bounds low high).1]>
             (<["high" := VInt (randint_bounds low high).2]>
                (<["seed" := VInt 0]> (<["dtype" := VDType t]> ∅))))
          shape "randint" (fw w) = (Ok (ins, ats), s1) ->
        helper_append_op rt
          {| op_type := "randint"; op_inputs := ins;
             op_outputs := {["Out" := VVar (length (heap s1))]};
             op_attrs := ats |}
          (with_variable s1 {| var_dtype := t; stop_gradient := false |})
        = (Raise e, s2) ->
        (randint rt low high shape dtype name w).1 = Raise e
        /\ fw (randint rt low high shape dtype name w).2 = s2).
Proof.
  split.
  - intros n dtype name w t e s2 Hmode Hres Hsup Hn Happend.
    rewrite (randperm_graph rt _ _ _ _ _ Hmode Hres).
    destruct (Z.ltb_spec n 1); [lia|].
    rewrite randperm_dtype_supported by done. simpl.
    unfold randperm_attrs. by rewrite Happend.
  - intros low high shape dtype name w t ins ats s1 e s2
      Hmode Hres Hsup Hshape Hlt Hcall Happend.
    rewrite (randint_graph rt _ _ _ _ _ _ _ Hmode Hres).
    rewrite check_type_ok by done.
    rewrite randint_dtype_supported by done.
    destruct (Z.geb_spec (randint_bounds low high).1
                (randint_bounds low high).2); [lia|].
    unfold randint_attrs. rewrite Hcall. simpl. by rewrite Happend.
Qed.

End Outcomes.

(** X9.  [rand] consults no collaborator but [uniform_random], and [randn]
    none but [gaussian_random]: on two runtimes that agree on the layer
    function the call has the same outcome, whatever their coercion, their
    shape helpers and their operator bindings do. *)
Theorem rand_randn_depend_on_layer_only rt1 rt2 shape dtype name w :
  uniform_random rt1 = uniform_random rt2 ->
  gaussian_random rt1 = gaussian_random rt2 ->
  rand rt1 shape dtype name w = rand rt2 shape dtype name w
  /\ randn rt1 shape dtype name w = randn rt2 shape dtype name w.
Proof.
  intros Hu Hg. split.
  - by rewrite !rand_run, Hu.
  - by rewrite !randn_run, Hg.
Qed.

(** ** Runs of the further properties *)

Lemma coercion_error_propagates_witness :
  resolve Sample.runtime (default_dtype (VStr "complex64") "int64")
  = Raise (TypeError "data type 'complex64' not understood")
  /\ resolve Sample.runtime VNone
     = Raise (TypeError "Cannot interpret the value as a data type")
  /\ randint Sample.runtime 0 (Some 5) randint_default_shape (VStr "complex64")
       VNone Sample.dygraph
     = (Raise (TypeError "data type 'complex64' not understood"),
        {| fw := fw Sample.dygraph; trace := [EvCoerce (VStr "complex64")] |})
  /\ randperm Sample.runtime 3 VNone VNone Sample.dygraph
     = (Raise (TypeError "Cannot interpret the value as a data type"),
        {| fw := fw Sample.dygraph; trace := [EvCoerce VNone] |}).
Proof.
  split; [reflexivity|]. split; [reflexivity|].
  apply (coercion_error_propagates Sample.runtime 0 (Some 5)
           randint_default_shape (VStr "complex64") VNone 3 VNone VNone
           Sample.dygraph);
    reflexivity.
Defined.

Lemma randperm_graph_success_implies_valid_witness :
  dygraph_mode (fw Sample.graph) = false
  /\ (randperm Sample.runtime 1 randperm_default_dtype VNone Sample.graph).1
     = Ok 0%nat
  /\ (exists t s2,
        resolve Sample.runtime randperm_default_dtype = Ok t
        /\ 1 <= 1
        /\ randperm_supported t
        /\ 0%nat = length (heap (fw Sample.graph))
        /\ helper_append_op Sample.runtime
             {| op_type := "randperm"; op_inputs := ∅;
                op_outputs := {["Out" := VVar 0]};
                op_attrs := <["n" := VInt 1]> (<["dtype" := VDType t]>
                              (<["seed" := VInt 0]> ∅)) |}
             (with_variable (fw Sample.graph)
                {| var_dtype := t; stop_gradient := false |})
           = (Ok tt, s2)
        /\ fw (randperm Sample.runtime 1 randperm_default_dtype VNone
                 Sample.graph).2 = with_stop_gradient s2 0 true)
  /\ resolve Sample.runtime (VDType BOOL) = Ok BOOL
  /\ is_Ok (randperm Sample.runtime 1 (VDType BOOL) VNone Sample.graph).1
     = false.
Proof.
  split; [reflexivity|]. split; [reflexivity|].
  split.
  - apply (proj1 (randperm_graph_success_implies_valid Sample.runtime 1
                    randperm_default_dtype VNone Sample.graph eq_refl) 0%nat).
    reflexivity.
  - split; [reflexivity|].
    apply (proj2 (randperm_graph_success_implies_valid Sample.runtime 1
                    (VDType BOOL) VNone Sample.graph eq_refl) BOOL);
      [reflexivity|].
    right. intros [H|[H|[H|H]]]; discriminate H.
Defined.

Lemma randint_graph_success_implies_valid_witness :
  dygraph_mode (fw Sample.graph) = false
  /\ (randint Sample.runtime 0 (Some 1) randint_default_shape VNone VNone
        Sample.graph).1 = Ok 0%nat
  /\ exists t ins ats s1,
       resolve Sample.runtime (default_dtype VNone "int64") = Ok t
       /\ randint_supported t
       /\ isinstance randint_default_shape [TList; TTuple; TVariable] = true
       /\ (randint_bounds 0 (Some 1)).1 < (randint_bounds 0 (Some 1)).2
       /\ _get_shape_tensor_inputs Sample.runtime ∅
            (randint_attrs (randint_bounds 0 (Some 1)).1
               (randint_bounds 0 (Some 1)).2 t)
            randint_default_shape "randint" (fw Sample.graph)
          = (Ok (ins, ats), s1)
       /\ 0%nat = length (heap s1).
Proof.
  split; [reflexivity|]. split; [vm_compute; reflexivity|].
  apply (randint_graph_success_implies_valid Sample.runtime 0 (Some 1)
           randint_default_shape VNone VNone Sample.graph 0%nat);
    [reflexivity | vm_compute; reflexivity].
Defined.

Lemma registered_node_matches_call_witness :
  keeps_attrs Sample.runtime
  /\ dygraph_mode (fw Sample.graph) = false
  /\ 1 <= 3
  /\ (randint_bounds 10 None).1 < (randint_bounds 10 None).2
  /\ (exists d,
        new_events Sample.graph
          (randperm Sample.runtime 3 randperm_default_dtype VNone
             Sample.graph).2
        = [EvCoerce (VStr "int64"); EvAppendOp d]
        /\ op_attrs d !! "n" = Some (VInt 3)
        /\ op_attrs d !! "dtype" = Some (VDType INT64)
        /\ op_attrs d !! "seed" = Some (VInt 0))
  /\ (exists d,
        new_events Sample.graph
          (randint Sample.runtime 10 None (VTuple [VInt 2; VInt 3])
             (VStr "int32") VNone Sample.graph).2
        = [EvCoerce (VStr "int32"); EvAppendOp d]
        /\ op_attrs d !! "low" = Some (VInt 0)
        /\ op_attrs d !! "high" = Some (VInt 10)
        /\ op_attrs d !! "dtype" = Some (VDType INT32)).
Proof.
  split; [exact sample_keeps_attrs|]. split; [reflexivity|]. split; [lia|].
  split; [simpl; lia|].
  destruct (registered_node_matches_call Sample.runtime) as [Hperm Hint].
  split.
  - destruct (Hperm 3 randperm_default_dtype VNone Sample.graph INT64)
      as (d & Hev & _ & _ & Hn & Hd & Hs & _);
      [reflexivity | reflexivity | right; left; reflexivity | lia |].
    exists d. split; [exact Hev|]. split; [exact Hn|].
    split; [exact Hd | exact Hs].
  - destruct (Hint sample_keeps_attrs 10 None (VTuple [VInt 2; VInt 3])
                (VStr "int32") VNone Sample.graph INT32 ∅
                (<["shape" := VList [VInt 2; VInt 3]]> (randint_attrs 0 10 INT32))
                (fw Sample.graph))
      as (d & Hev & _ & _ & Hl & Hh & _ & Hd & _);
      [reflexivity | reflexivity | left; reflexivity | reflexivity
      | simpl; lia | reflexivity |].
    exists d. split; [exact Hev|]. split; [exact Hl|].
    split; [exact Hh | exact Hd].
Defined.



Lemma rand_randn_depend_on_layer_only_witness :
  uniform_random Sample.runtime
  = uniform_random
      (with_convert Sample.runtime (fun _ => Raise (TypeError "no coercion")))
  /\ rand Sample.runtime randint_default_shape VNone VNone Sample.dygraph
     = rand (with_convert Sample.runtime
               (fun _ => Raise (TypeError "no coercion")))
         randint_default_shape VNone VNone Sample.dygraph.
Proof.
  split; [reflexivity|].
  apply (rand_randn_depend_on_layer_only Sample.runtime
           (with_convert Sample.runtime
              (fun _ => Raise (TypeError "no coercion")))
           randint_default_shape VNone VNone Sample.dygraph);
    reflexivity.
Defined.

Lemma append_error_ends_call_witness :
  dygraph_mode (fw Sample.graph) = false
  /\ resolve Eager.runtime randperm_default_dtype = Ok INT64
  /\ 1 <= 2147483648
  /\ (randperm Eager.runtime 2147483648 randperm_default_dtype VNone
        Sample.graph).1
     = Raise (OtherError "Exception" "attribute n out of range")
  /\ fw (randperm Eager.runtime 2147483648 randperm_default_dtype VNone
           Sample.graph).2
     = with_variable (fw Sample.graph)
         {| var_dtype := INT64; stop_gradient := false |}.
Proof.
  split; [reflexivity|]. split; [reflexivity|]. split; [lia|].
  apply (proj1 (append_error_ends_call Eager.runtime) 2147483648
           randperm_default_dtype VNone Sample.graph INT64);
    [reflexivity | reflexivity | right; left; reflexivity | lia
    | reflexivity].
Defined.
